(** * VPN node stability scoring: the ingestion and ranking core of [main.py]

    The embedding follows [src/main.py] function by function:
    [parse_value], [read_csv_files], [calculate_scores] and [rank_nodes],
    then the part of [visualize_performance] that prepares the plotted
    series and the two calls of [main] that lead to the rankings.  The
    drawing and the printing of the table are not embedded.

    The program is embedded twice.

    The first embedding idealises the numbers: a Python [float] that
    holds a finite value is a real number, without rounding and without
    overflow, and [pyfloat] adds the two infinities and not-a-number.
    The statistics are the exact mean and the exact Bessel-corrected
    standard deviation, and the directory is a list of files that can
    all be read.  It carries the properties that do not depend on how a
    double rounds: the return value on too little data, the order and
    the stability of the ranking, the file names and the keys of the
    corpus, the series that are plotted.

    The second embedding, the module [Py], has the numbers of Python:
    IEEE 754 doubles, a library ([float], [statistics.mean],
    [statistics.stdev]) that may raise, and a directory whose files may
    fail to open or to decode.  It carries everything that depends on
    parsing, on rounding or on which exception is raised.

    Exceptions.  Code that may raise returns a [result]; [bind] stops at
    the first exception, as an uncaught Python exception does. *)

From Stdlib Require Import Floats QArith.
From Stdlib Require Import String Ascii.
From Stdlib Require Import Reals Lra Lia List Bool Arith ZArith.
From Stdlib Require Import Sorting.Sorted Sorting.Permutation.
From Stdlib Require Import Structures.OrderedTypeEx.
Import ListNotations.

Local Open Scope R_scope.

(** ** Exceptions *)

Inductive exn : Type :=
| ZeroDivisionError
| StatisticsError
| StopIteration
| ValueError.

Inductive result (A : Type) : Type :=
| Ok (a : A)
| Raise (e : exn).

Arguments Ok {A} a.
Arguments Raise {A} e.

Definition bind {A B : Type} (m : result A) (k : A -> result B) : result B :=
  match m with
  | Ok a => k a
  | Raise e => Raise e
  end.

Notation "x <- m ;; k" := (bind m (fun x => k))
  (at level 61, m at next level, right associativity).

(** ** Numbers *)

Inductive pyfloat : Type :=
| Fin (r : R)
| PInf
| NInf
| NaN.

(** [x / y] on two finite floats: Python raises on a zero divisor. *)
Definition rdiv (x y : R) : result R :=
  if Req_dec_T y 0 then Raise ZeroDivisionError else Ok (x / y).

Definition pf_neg (x : pyfloat) : pyfloat :=
  match x with
  | Fin r => Fin (- r)
  | PInf => NInf
  | NInf => PInf
  | NaN => NaN
  end.

Definition pf_add (x y : pyfloat) : pyfloat :=
  match x, y with
  | NaN, _ | _, NaN => NaN
  | Fin a, Fin b => Fin (a + b)
  | PInf, NInf | NInf, PInf => NaN
  | PInf, _ | _, PInf => PInf
  | NInf, _ | _, NInf => NInf
  end.

Definition pf_sub (x y : pyfloat) : pyfloat := pf_add x (pf_neg y).

(** An infinity times a finite factor keeps or flips its sign; times zero
    it is not a number. *)
Definition pf_scale_inf (pos : bool) (r : R) : pyfloat :=
  if Req_dec_T r 0 then NaN
  else if Rlt_dec 0 r then (if pos then PInf else NInf)
  else (if pos then NInf else PInf).

Definition pf_mul (x y : pyfloat) : pyfloat :=
  match x, y with
  | NaN, _ | _, NaN => NaN
  | Fin a, Fin b => Fin (a * b)
  | Fin a, PInf | PInf, Fin a => pf_scale_inf true a
  | Fin a, NInf | NInf, Fin a => pf_scale_inf false a
  | PInf, PInf | NInf, NInf => PInf
  | PInf, NInf | NInf, PInf => NInf
  end.

Definition pf_div (x y : pyfloat) : result pyfloat :=
  match x, y with
  | _, Fin b =>
      if Req_dec_T b 0 then Raise ZeroDivisionError
      else match x with
           | Fin a => Ok (Fin (a / b))
           | PInf => Ok (pf_scale_inf true b)
           | NInf => Ok (pf_scale_inf false b)
           | NaN => Ok NaN
           end
  | NaN, _ | _, NaN => Ok NaN
  | Fin _, _ => Ok (Fin 0)
  | _, _ => Ok NaN
  end.

(** [x < y]; every comparison with not-a-number is false. *)
Definition pf_ltb (x y : pyfloat) : bool :=
  match x, y with
  | NaN, _ | _, NaN => false
  | Fin a, Fin b => if Rlt_dec a b then true else false
  | NInf, NInf | PInf, _ => false
  | NInf, _ => true
  | Fin _, PInf => true
  | Fin _, NInf => false
  end.


(** The builtins [min(a, b)] and [max(a, b)]: the first argument is kept
    unless the second is strictly smaller (larger). *)
Definition pf_min (a b : pyfloat) : pyfloat := if pf_ltb b a then b else a.
Definition pf_max (a b : pyfloat) : pyfloat := if pf_ltb a b then b else a.

(** ** Strings and the builtin [float]

    A [str] is a [string] of 8-bit characters; upper-casing and white
    space are those of ASCII. *)

Definition is_space (c : ascii) : bool :=
  let n := nat_of_ascii c in
  ((9 <=? n) && (n <=? 13) || (28 <=? n) && (n <=? 32))%nat.

Definition digit_of (c : ascii) : option Z :=
  let n := nat_of_ascii c in
  if ((48 <=? n) && (n <=? 57))%nat then Some (Z.of_nat (n - 48)) else None.

Definition upper_char (c : ascii) : ascii :=
  let n := nat_of_ascii c in
  if ((97 <=? n) && (n <=? 122))%nat then ascii_of_nat (n - 32) else c.

(** [value.upper()] *)
Fixpoint upper (s : string) : string :=
  match s with
  | EmptyString => EmptyString
  | String c s' => String (upper_char c) (upper s')
  end.

Fixpoint lstrip (cs : list ascii) : list ascii :=
  match cs with
  | c :: rest => if is_space c then lstrip rest else cs
  | [] => []
  end.

Definition strip (cs : list ascii) : list ascii :=
  rev (lstrip (rev (lstrip cs))).

(** An optional sign: whether it is a minus, and what follows it. *)
Definition sign (cs : list ascii) : bool * list ascii :=
  match cs with
  | "-"%char :: rest => (true, rest)
  | "+"%char :: rest => (false, rest)
  | _ => (false, cs)
  end.

(** The digits after the first one of a digit part; one underscore may
    stand between two digits.  [acc] is the number read so far and
    [count] how many digits it has. *)
Fixpoint more_digits (acc : Z) (count : nat) (cs : list ascii)
  : Z * nat * list ascii :=
  match cs with
  | c :: rest =>
      match digit_of c with
      | Some d => more_digits (10 * acc + d) (S count) rest
      | None =>
          if (c =? "_")%char then
            match rest with
            | c' :: rest' =>
                match digit_of c' with
                | Some d => more_digits (10 * acc + d) (S count) rest'
                | None => (acc, count, cs)
                end
            | [] => (acc, count, cs)
            end
          else (acc, count, cs)
      end
  | [] => (acc, count, [])
  end.

(** [digitpart ::= digit (["_"] digit)*] *)
Definition digitpart (acc : Z) (cs : list ascii)
  : option (Z * nat * list ascii) :=
  match cs with
  | c :: rest =>
      match digit_of c with
      | Some d => Some (more_digits (10 * acc + d) 1 rest)
      | None => None
      end
  | [] => None
  end.

(** [number ::= [digitpart] "." digitpart | digitpart ["."]]: all the
    digits read as one integer, the number of digits after the point, and
    the rest of the input. *)
Definition number (cs : list ascii) : option (Z * nat * list ascii) :=
  match cs with
  | "."%char :: rest => digitpart 0 rest
  | _ =>
      match digitpart 0 cs with
      | Some (m, _, "."%char :: rest) =>
          match digitpart m rest with
          | Some found => Some found
          | None => Some (m, 0%nat, rest)
          end
      | Some (m, _, rest) => Some (m, 0%nat, rest)
      | None => None
      end
  end.

(** [exponent ::= ("e" | "E") [sign] digitpart], or nothing. *)
Definition exponent (cs : list ascii) : option (Z * list ascii) :=
  match cs with
  | c :: rest =>
      if ((c =? "e") || (c =? "E"))%char then
        let '(minus, rest1) := sign rest in
        match digitpart 0 rest1 with
        | Some (e, _, rest2) => Some (if minus then (- e)%Z else e, rest2)
        | None => None
        end
      else Some (0%Z, cs)
  | [] => Some (0%Z, [])
  end.

(** A decimal literal read: [(-1)^negative * mantissa * 10^scale]. *)
Record decimal : Type := mk_decimal {
  negative : bool;
  mantissa : Z;
  scale : Z
}.

Definition scan_float (s : string) : option decimal :=
  let '(minus, cs) := sign (strip (list_ascii_of_string s)) in
  match number cs with
  | Some (m, frac_digits, rest) =>
      match exponent rest with
      | Some (e, []) => Some (mk_decimal minus m (e - Z.of_nat frac_digits))
      | _ => None
      end
  | None => None
  end.

Definition decimal_value (d : decimal) : R :=
  let magnitude := IZR (mantissa d) * powerRZ 10 (scale d) in
  if negative d then - magnitude else magnitude.

(** [float(value)] on a string: the value of a decimal literal, or
    [ValueError]. *)
Definition float (value : string) : result R :=
  match scan_float value with
  | Some d => Ok (decimal_value d)
  | None => Raise ValueError
  end.

(** ** [parse_value] *)

(** [float] raises nothing but [ValueError], which the [except] clause
    turns into [None]. *)
Definition parse_value (value : string) : option R :=
  if ((value =? "") || (upper value =? "ERROR"))%string then None
  else
    match float value with
    | Ok v => Some v
    | Raise _ => None
    end.

(** ** Measurements *)

(** One element of a server's list: a pair of floats, or the pair of
    strings [('ERROR', 'ERROR')]. *)
Inductive measurement : Type :=
| Valid (ping speed : R)
| ErrorMarker.

(** [m != ('ERROR', 'ERROR')] *)
Definition not_error (m : measurement) : bool :=
  match m with
  | Valid _ _ => true
  | ErrorMarker => false
  end.

(** [zip( *valid_measurements )] on a list of pairs: the two columns. *)
Definition unzip (ms : list measurement) : list R * list R :=
  fold_right
    (fun m acc =>
       match m with
       | Valid p s => (p :: fst acc, s :: snd acc)
       | ErrorMarker => acc
       end)
    ([], []) ms.

(** A server's files in insertion order, and the servers in insertion
    order: the two nested dictionaries of [read_csv_files]. *)
Definition server_dataset : Type := list (string * list measurement).
Definition corpus : Type := list (string * server_dataset).

(** ** The builtin [sorted] *)

Section PySorted.
Context {A K : Type}.
Variable lt : K -> K -> bool.
Variable key : A -> K.

(** Insertion in front of the first element whose key is not strictly
    smaller; only [<] on keys is used, as [list.sort] does. *)
Fixpoint insert (x : A) (l : list A) : list A :=
  match l with
  | [] => [x]
  | y :: l' => if lt (key y) (key x) then y :: insert x l' else x :: l
  end.

(** [sorted(l, key=key)]: a stable ascending sort. *)
Definition sorted (l : list A) : list A := fold_right insert [] l.

(** [sorted(l, key=key, reverse=True)]: the list is reversed before and
    after the ascending sort, which keeps equal keys in input order. *)
Definition sorted_reverse (l : list A) : list A := rev (sorted (rev l)).
End PySorted.

(** ** [read_csv_files] *)

(** A row as [csv.reader] yields it, a file as its name and rows, the
    directory as [os.listdir] and [open] present it. *)
Definition row : Type := list string.
Definition directory : Type := list (string * list row).

(** [d[k]] followed by an in-place change of the value, on a
    [defaultdict] whose missing values start as [default]; a new key goes
    last. *)
Fixpoint setdefault_update {V : Type} (k : string) (default : V)
    (change : V -> V) (d : list (string * V)) : list (string * V) :=
  match d with
  | [] => [(k, change default)]
  | (k', v) :: d' =>
      if (k' =? k)%string then (k', change v) :: d'
      else (k', v) :: setdefault_update k default change d'
  end.

(** [data[server_name][filename].append(m)] *)
Definition record_measurement (server filename : string) (m : measurement)
    (data : corpus) : corpus :=
  setdefault_update server []
    (setdefault_update filename [] (fun ms => ms ++ [m])) data.

(** The body of the loop over the rows of one file. *)
Definition process_row (filename : string) (r : row) (data : corpus)
  : corpus :=
  match r with
  | [server; ping; speed] =>
      let ping_value := parse_value ping in
      let speed_value := parse_value speed in
      match ping_value, speed_value with
      | Some p, Some s => record_measurement server filename (Valid p s) data
      | None, None => record_measurement server filename ErrorMarker data
      | _, _ => data
      end
  | _ => data
  end.

Definition process_rows (filename : string) (rows : list row) (data : corpus)
  : corpus :=
  fold_left (fun d r => process_row filename r d) rows data.

(** One file: [next(reader)] skips the header and raises on a file with
    no row at all. *)
Definition read_file (filename : string) (rows : list row) (data : corpus)
  : result corpus :=
  match rows with
  | [] => Raise StopIteration
  | _ :: body => Ok (process_rows filename body data)
  end.

(** [filename.endswith(suffix)] *)
Definition endswith (s suffix : string) : bool :=
  let n := String.length s in
  let m := String.length suffix in
  ((m <=? n)%nat && (substring (n - m) m s =? suffix)%string).

Fixpoint read_files (files : directory) (data : corpus)
    (file_names : list string) : result (corpus * list string) :=
  match files with
  | [] => Ok (data, file_names)
  | (filename, rows) :: rest =>
      if endswith filename ".csv" then
        data' <- read_file filename rows data ;;
        read_files rest data' (file_names ++ [filename])
      else read_files rest data file_names
  end.

Definition read_csv_files (dir : directory)
  : result (corpus * list string) :=
  read_files (sorted String.ltb fst dir) [] [].

(** ** The [statistics] module *)

Definition fsum (l : list R) : R := fold_right Rplus 0 l.

(** [statistics.mean]: the arithmetic mean; empty data raises. *)
Definition mean (data : list R) : result R :=
  match data with
  | [] => Raise StatisticsError
  | _ => Ok (fsum data / INR (length data))
  end.

(** [statistics.variance]: the sample variance, the sum of the squared
    deviations from the mean over [n - 1]; fewer than two points raise. *)
Definition variance (data : list R) : result R :=
  if (length data <? 2)%nat then Raise StatisticsError
  else
    let c := fsum data / INR (length data) in
    Ok (fsum (map (fun x => (x - c) * (x - c)) data) / INR (length data - 1)).

(** [statistics.stdev]: the square root of the sample variance. *)
Definition stdev (data : list R) : result R :=
  v <- variance data ;; Ok (sqrt v).

(** ** [calculate_scores] *)

Definition ping_stability (pings : list R) : result R :=
  sd <- stdev pings ;; rdiv 1 (sd + 1).

Definition speed_stability (speeds : list R) : result R :=
  sd <- stdev speeds ;;
  mu <- mean speeds ;;
  cv <- rdiv sd mu ;;
  rdiv 1 (cv + 1).

Definition calculate_scores (measurements : list measurement)
  : result (pyfloat * pyfloat * pyfloat) :=
  let valid_measurements := filter not_error measurements in
  if (length valid_measurements <? 2)%nat then Ok (Fin 0, Fin 0, PInf)
  else
    let '(pings, speeds) := unzip valid_measurements in
    ping_stab <- ping_stability pings ;;
    speed_stab <- speed_stability speeds ;;
    stability_score <- rdiv (ping_stab + speed_stab) 2 ;;
    avg_speed <- mean speeds ;;
    avg_ping <- mean pings ;;
    Ok (Fin stability_score, Fin avg_speed, Fin avg_ping).

(** ** [rank_nodes] *)

(** One tuple of [rankings]. *)
Record ranking : Type := mk_ranking {
  server_name : string;
  weighted_score : pyfloat;
  stability_score : pyfloat;
  avg_speed : pyfloat;
  avg_ping : pyfloat
}.

(** [[m for file_ms in file_measurements.values() for m in file_ms]] *)
Definition all_measurements (file_measurements : server_dataset)
  : list measurement :=
  flat_map snd file_measurements.

(** Lines 61 to 66: normalisation and the weighted sum. *)
Definition weigh (stability speed ping : pyfloat) : result pyfloat :=
  normalized_stability <- pf_div stability (Fin 1) ;;
  speed_ratio <- pf_div speed (Fin 100) ;;
  let normalized_speed := pf_min speed_ratio (Fin 1) in
  ping_ratio <- pf_div ping (Fin 1000) ;;
  let normalized_ping := pf_max (pf_sub (Fin 1) ping_ratio) (Fin 0) in
  pf_div
    (pf_add
       (pf_add (pf_mul (Fin 4) normalized_stability)
               (pf_mul (Fin 3) normalized_speed))
       (pf_mul (Fin 1) normalized_ping))
    (Fin 8).

(** The body of the loop over [data.items()]. *)
Definition rank_server (item : string * server_dataset) : result ranking :=
  scores <- calculate_scores (all_measurements (snd item)) ;;
  let '(stability, speed, ping) := scores in
  w <- weigh stability speed ping ;;
  Ok (mk_ranking (fst item) w stability speed ping).

Fixpoint rank_loop (items : corpus) (rankings : list ranking)
  : result (list ranking) :=
  match items with
  | [] => Ok rankings
  | item :: rest =>
      r <- rank_server item ;; rank_loop rest (rankings ++ [r])
  end.

Definition rank_nodes (data : corpus) : result (list ranking) :=
  rankings <- rank_loop data [] ;;
  Ok (sorted_reverse pf_ltb weighted_score rankings).

(** ** [visualize_performance]: the series that are plotted

    Lines 73 to 92 build three dictionaries from the corpus and the file
    names; the drawing that follows them is outside this embedding. *)

(** [d.get(k, default)] *)
Fixpoint get {V : Type} (k : string) (default : V) (d : list (string * V)) : V :=
  match d with
  | [] => default
  | (k', v) :: d' => if (k' =? k)%string then v else get k default d'
  end.

Record series : Type := mk_series {
  ping_data : list (string * list (option R));
  speed_data : list (string * list (option R));
  error_data : list (string * list nat)
}.

(** [d[server_name].append(v)] on a [defaultdict(list)] *)
Definition append_point {V : Type} (server : string) (v : V)
    (d : list (string * list V)) : list (string * list V) :=
  setdefault_update server [] (fun values => values ++ [v]) d.

(** The body of the loop over [file_names], for one server. *)
Definition plot_file (server : string) (file_measurements : server_dataset)
    (filename : string) (acc : series) : result series :=
  let measurements := get filename [] file_measurements in
  let valid_measurements := filter not_error measurements in
  let error_count := (length measurements - length valid_measurements)%nat in
  acc' <-
    match valid_measurements with
    | _ :: _ =>
        let '(pings, speeds) := unzip valid_measurements in
        p <- mean pings ;;
        s <- mean speeds ;;
        Ok (mk_series (append_point server (Some p) (ping_data acc))
                      (append_point server (Some s) (speed_data acc))
                      (error_data acc))
    | [] =>
        Ok (mk_series (append_point server None (ping_data acc))
                      (append_point server None (speed_data acc))
                      (error_data acc))
    end ;;
  Ok (mk_series (ping_data acc') (speed_data acc')
                (append_point server error_count (error_data acc'))).

Fixpoint plot_files (server : string) (file_measurements : server_dataset)
    (file_names : list string) (acc : series) : result series :=
  match file_names with
  | [] => Ok acc
  | filename :: rest =>
      acc' <- plot_file server file_measurements filename acc ;;
      plot_files server file_measurements rest acc'
  end.

Fixpoint plot_servers (items : corpus) (file_names : list string)
    (acc : series) : result series :=
  match items with
  | [] => Ok acc
  | (server, file_measurements) :: rest =>
      acc' <- plot_files server file_measurements file_names acc ;;
      plot_servers rest file_names acc'
  end.

Definition visualize_performance_data (data : corpus)
    (file_names : list string) : result series :=
  plot_servers data file_names (mk_series [] [] []).

(** ** [main]: from the directory to the rankings (lines 121 and 122) *)

Definition main_rankings (dir : directory) : result (list ranking) :=
  loaded <- read_csv_files dir ;;
  rank_nodes (fst loaded).

(** ** The vocabulary of the specification

    The valid pairs of a sample list, the arithmetic mean and the
    Bessel-corrected sample standard deviation, written after the
    specification's words; the theorems compare the code with them. *)

Fixpoint spec_valid_pairs (ms : list measurement) : list (R * R) :=
  match ms with
  | [] => []
  | Valid p s :: rest => (p, s) :: spec_valid_pairs rest
  | ErrorMarker :: rest => spec_valid_pairs rest
  end.

Definition spec_pings (ms : list measurement) : list R :=
  map fst (spec_valid_pairs ms).

Definition spec_speeds (ms : list measurement) : list R :=
  map snd (spec_valid_pairs ms).

Definition spec_mean (xs : list R) : R := fsum xs / INR (length xs).

Definition spec_stdev (xs : list R) : R :=
  sqrt (fsum (map (fun x => Rsqr (x - spec_mean xs)) xs)
        / (INR (length xs) - 1)).

(** The stability score and the weighted score of the specification. *)
Definition spec_stability (pings speeds : list R) : R :=
  let ping_stab := 1 / (spec_stdev pings + 1) in
  let speed_stab := 1 / (spec_stdev speeds / spec_mean speeds + 1) in
  (ping_stab + speed_stab) / 2.

Definition spec_weighted (stability speed ping : R) : R :=
  (4 * stability + 3 * Rmin (speed / 100) 1 + 1 * Rmax (1 - ping / 1000) 0) / 8.





Definition is_error (m : measurement) : bool := negb (not_error m).

(** A field that is, case-insensitively, "ERROR" or the empty string. *)
Definition spec_explicit_error (field : string) : bool :=
  ((field =? "") || (upper field =? "ERROR"))%string.

(** *** Vocabulary of the further properties *)

Definition is_csv (file : string * list row) : bool :=
  endswith (fst file) ".csv".

(** The point of the ping (speed) line of a server at a file, and the
    number of error markers there. *)
Definition spec_point (column : list measurement -> list R)
    (file_measurements : server_dataset) (filename : string) : option R :=
  match column (get filename [] file_measurements) with
  | [] => None
  | values => Some (spec_mean values)
  end.

Definition spec_error_point (file_measurements : server_dataset)
    (filename : string) : nat :=
  length (filter is_error (get filename [] file_measurements)).

(** The shape that ingestion keeps: distinct server keys, and for every
    server at least one file, distinct file keys, and in every file at
    least one measurement, the file being one of [file_names]. *)
Definition well_keyed (file_names : list string) (data : corpus) : Prop :=
  NoDup (map fst data) /\
  forall server files,
    In (server, files) data ->
    files <> [] /\ NoDup (map fst files) /\
    forall filename ms,
      In (filename, ms) files -> ms <> [] /\ In filename file_names.

(** The lines of one plot: for every server, in corpus order, one point
    per file name; no line at all when there is no file name. *)
Definition spec_lines {V : Type} (point : server_dataset -> string -> V)
    (data : corpus) (file_names : list string) : list (string * list V) :=
  match file_names with
  | [] => []
  | _ => map (fun item => (fst item, map (point (snd item)) file_names)) data
  end.

Definition spec_series (data : corpus) (file_names : list string) : series :=
  mk_series (spec_lines (spec_point spec_pings) data file_names)
            (spec_lines (spec_point spec_speeds) data file_names)
            (spec_lines spec_error_point data file_names).

Definition add_key (keys : list string) (k : string) : list string :=
  if existsb (String.eqb k) keys then keys else keys ++ [k].

Definition first_occurrences (names : list string) : list string :=
  fold_left add_key names [].

(** * The same functions on Python's doubles

    The module [Py] embeds [parse_value], [read_csv_files],
    [calculate_scores], [rank_nodes] and [main] a second time, with the
    numbers and the failures that Python has.

    A [float] is an IEEE 754 binary64 number, here [PrimFloat.float]: the
    operations round to nearest, ties to even, and know the infinities,
    the two zeros and not-a-number.  An [int] constant of the source (0,
    1, 2, 3, 4, 8, 100, 1000) meets a [float] in every operation that
    matters and converts to it without rounding, so it is written as the
    double of the same value.

    The builtin [float] and the functions [mean] and [stdev] of the
    [statistics] module are not part of [main.py].  The program is
    embedded over any [library] that provides the three, and the
    theorems that follow its control flow hold for every library.  The
    library of CPython 3.11 is embedded as [cpython], after
    [Objects/floatobject.c], [Python/pystrtod.c] and
    [Lib/statistics.py]; sums of doubles are exact fractions there, and
    the one rounding of each function is the last step.

    The directory is what [os.listdir] and [open] make of it; both may
    raise. *)

Module Py.

Declare Scope py_scope.

(** ** Exceptions *)

Inductive exception : Type :=
| ZeroDivisionError
| StatisticsError
| StopIteration
| ValueError
| OverflowError
| AttributeError
| OtherError (name : string).

Inductive result (A : Type) : Type :=
| Ok (a : A)
| Raise (e : exception).

Arguments Ok {A} a.
Arguments Raise {A} e.

Definition bind {A B : Type} (m : result A) (k : A -> result B) : result B :=
  match m with
  | Ok a => k a
  | Raise e => Raise e
  end.

Notation "x <- m ;; k" := (bind m (fun x => k))
  (at level 61, m at next level, right associativity) : py_scope.

Local Open Scope py_scope.

(** ** Doubles *)

(** [x / y]: Python raises on a divisor that equals zero, of either
    sign. *)
Definition div (x y : PrimFloat.float) : result PrimFloat.float :=
  if (y =? 0)%float then Raise ZeroDivisionError else Ok (x / y)%float.

(** The builtins [min(a, b)] and [max(a, b)]: the first argument is kept
    unless the second is strictly smaller (larger); a comparison with
    not-a-number is false. *)
Definition min (a b : PrimFloat.float) : PrimFloat.float :=
  if (b <? a)%float then b else a.

Definition max (a b : PrimFloat.float) : PrimFloat.float :=
  if (a <? b)%float then b else a.

(** [math.isfinite] *)
Definition is_finite (x : PrimFloat.float) : bool :=
  match Prim2SF x with
  | S754_zero _ | S754_finite _ _ _ => true
  | S754_infinity _ | S754_nan => false
  end.

Definition signed (negative : bool) (x : PrimFloat.float) : PrimFloat.float :=
  if negative then (- x)%float else x.

(** ** Rounding a quotient of integers to a double *)

(** [int.bit_length] *)
Definition bit_length (n : Z) : Z :=
  match n with
  | Z0 => 0
  | _ => Z.log2 (Z.abs n) + 1
  end.

(** The integer nearest to [n / d], ties to even, for [0 <= n] and
    [0 < d]. *)
Definition round_half_even (n d : Z) : Z :=
  let q := (n / d)%Z in
  match (2 * (n mod d) ?= d)%Z with
  | Lt => q
  | Eq => if Z.even q then q else (q + 1)%Z
  | Gt => (q + 1)%Z
  end.

(** The double [m * 2^e], for [0 <= m <= 2^53] and [-1074 <= e]. *)
Definition scaled (m e : Z) : PrimFloat.float :=
  FloatOps.Z.ldexp (PrimFloat.of_uint63 (Uint63.of_Z m)) e.

(** The double nearest to [n / d], for [0 < n] and [0 < d].  The
    quotient is scaled by a power of two [2^e] so that its integer part
    has 53 bits, or fewer at the bottom of the range, and rounded there;
    beyond the largest double the result is infinity. *)
Definition nearest (n d : Z) : PrimFloat.float :=
  let e0 := (bit_length n - bit_length d - 53)%Z in
  let e1 :=
    if (0 <=? e0)%Z then (if (d * 2 ^ (e0 + 53) <=? n)%Z then e0 + 1 else e0)%Z
    else (if (d * 2 ^ 53 <=? n * 2 ^ (- e0))%Z then e0 + 1 else e0)%Z in
  let e := Z.max e1 (-1074) in
  let m :=
    if (0 <=? e)%Z then round_half_even n (d * 2 ^ e)
    else round_half_even (n * 2 ^ (- e)) d in
  if (1024 <? bit_length m + e)%Z then PrimFloat.infinity else scaled m e.

(** The double nearest to [n / d] for integers of either sign, [d] not
    zero. *)
Definition nearest_ratio (n d : Z) : PrimFloat.float :=
  let negative := xorb (n <? 0)%Z (d <? 0)%Z in
  if (n =? 0)%Z then signed negative 0%float
  else signed negative (nearest (Z.abs n) (Z.abs d)).

(** [a / b] on two [int]s: the quotient correctly rounded. *)
Definition int_true_divide (a b : Z) : result PrimFloat.float :=
  if (b =? 0)%Z then Raise ZeroDivisionError
  else
    let x := nearest_ratio a b in
    if PrimFloat.is_infinity x then Raise OverflowError else Ok x.

(** ** The builtin [float] of CPython on a [str]

    A [str] is a [string] of code points below 256. *)

(** [Py_ISSPACE] *)
Definition is_space (c : ascii) : bool :=
  let n := nat_of_ascii c in
  ((9 <=? n) && (n <=? 13) || (n =? 32))%nat.

Definition is_digit (c : ascii) : bool :=
  match digit_of c with
  | Some _ => true
  | None => false
  end.

(** [_PyUnicode_TransformDecimalAndSpaceToASCII]: code points below 127
    are kept, the white space beyond them (U+0085 and U+00A0) becomes a
    blank, and the text ends in a question mark at any other code
    point. *)
Fixpoint transform_decimal_and_space (cs : list ascii) : list ascii :=
  match cs with
  | [] => []
  | c :: rest =>
      let n := nat_of_ascii c in
      if (n <? 127)%nat then c :: transform_decimal_and_space rest
      else if ((n =? 133) || (n =? 160))%nat
           then " "%char :: transform_decimal_and_space rest
      else ["?"%char]
  end.

(** [_Py_string_to_number_with_underscores]: an underscore is dropped
    when a digit stands before it and a digit after it, and refused
    otherwise.  [prev] is the character before [cs]. *)
Fixpoint remove_underscores (prev : ascii) (cs : list ascii)
  : option (list ascii) :=
  match cs with
  | [] => if (prev =? "_")%char then None else Some []
  | c :: rest =>
      if (c =? "_")%char then
        if is_digit prev then remove_underscores c rest else None
      else if (prev =? "_")%char && negb (is_digit c) then None
      else option_map (cons c) (remove_underscores c rest)
  end.

Fixpoint lstrip (cs : list ascii) : list ascii :=
  match cs with
  | c :: rest => if is_space c then lstrip rest else cs
  | [] => []
  end.

Definition strip (cs : list ascii) : list ascii :=
  rev (lstrip (rev (lstrip cs))).

(** Zero or more digits: the number read so far, how many digits were
    read, and the rest. *)
Fixpoint digits (acc : Z) (count : nat) (cs : list ascii)
  : Z * nat * list ascii :=
  match cs with
  | c :: rest =>
      match digit_of c with
      | Some d => digits (10 * acc + d) (S count) rest
      | None => (acc, count, cs)
      end
  | [] => (acc, count, [])
  end.

(** Digits with at most one point among them and at least one digit: all
    the digits as one integer, the number of digits after the point, and
    the rest. *)
Definition number (cs : list ascii) : option (Z * nat * list ascii) :=
  let '(whole, whole_count, rest) := digits 0 0 cs in
  match rest with
  | "."%char :: rest' =>
      let '(all, fraction_count, rest'') := digits whole 0 rest' in
      if (whole_count + fraction_count =? 0)%nat then None
      else Some (all, fraction_count, rest'')
  | _ => if (whole_count =? 0)%nat then None else Some (whole, 0%nat, rest)
  end.

(** An exponent [e] or [E], an optional sign and digits; an [e] that no
    digit follows is not part of the number. *)
Definition exponent (cs : list ascii) : Z * list ascii :=
  match cs with
  | c :: rest =>
      if ((c =? "e") || (c =? "E"))%char then
        let '(minus, rest1) := sign rest in
        let '(e, count, rest2) := digits 0 0 rest1 in
        if (count =? 0)%nat then (0%Z, cs)
        else (if minus then (- e)%Z else e, rest2)
      else (0%Z, cs)
  | [] => (0%Z, [])
  end.

(** The double nearest to [d * 10^e], for [0 <= d]. *)
Definition decimal_to_double (d e : Z) : PrimFloat.float :=
  if (d =? 0)%Z then 0%float
  else if (0 <=? e)%Z then nearest (d * 10 ^ e) 1
  else nearest d (10 ^ (- e)).

Definition lower_char (c : ascii) : ascii :=
  let n := nat_of_ascii c in
  if ((65 <=? n) && (n <=? 90))%nat then ascii_of_nat (n + 32) else c.

(** [_Py_parse_inf_or_nan], after the sign *)
Definition parse_inf_or_nan (cs : list ascii) : option PrimFloat.float :=
  let name := string_of_list_ascii (map lower_char cs) in
  if ((name =? "inf") || (name =? "infinity"))%string then Some PrimFloat.infinity
  else if (name =? "nan")%string then Some PrimFloat.nan
  else None.

(** [PyOS_string_to_double] on text that must be used up. *)
Definition string_to_double (cs : list ascii) : option PrimFloat.float :=
  let '(minus, body) := sign cs in
  match parse_inf_or_nan body with
  | Some x => Some (signed minus x)
  | None =>
      match number body with
      | Some (d, fraction_count, rest) =>
          match exponent rest with
          | (e, []) =>
              Some (signed minus
                      (decimal_to_double d (e - Z.of_nat fraction_count)))
          | _ => None
          end
      | None => None
      end
  end.

(** [float(value)] on a [str]; [None] stands for [ValueError]. *)
Definition builtin_float (value : string) : option PrimFloat.float :=
  match remove_underscores "000"%char
          (transform_decimal_and_space (list_ascii_of_string value)) with
  | Some cs => string_to_double (strip cs)
  | None => None
  end.

(** ** The [statistics] module of CPython 3.11 *)

(** [float.as_integer_ratio]: the exact value of a finite double;
    [None] for an infinity and for not-a-number, on which Python raises
    and [_exact_ratio] answers [(x, None)]. *)
Definition as_integer_ratio (x : PrimFloat.float) : option Q :=
  match Prim2SF x with
  | S754_zero _ => Some 0%Q
  | S754_finite s m e => Some (inject_Z (if s then Zneg m else Zpos m) * 2 ^ e)%Q
  | S754_infinity _ | S754_nan => None
  end.

(** The exact values of the data, when all of them are finite. *)
Fixpoint exact_ratios (data : list PrimFloat.float) : option (list Q) :=
  match data with
  | [] => Some []
  | x :: rest =>
      match as_integer_ratio x, exact_ratios rest with
      | Some q, Some qs => Some (q :: qs)
      | _, _ => None
      end
  end.

Definition fraction_sum (l : list Q) : Q := fold_right Qplus 0%Q l.

(** [float(Fraction)]: numerator over denominator, in lowest terms. *)
Definition float_of_fraction (q : Q) : result PrimFloat.float :=
  let r := Qred q in int_true_divide (Qnum r) (Zpos (Qden r)).

(** The sum under the key [None] of [_sum] and [_ss]: the infinities and
    not-a-numbers of the data, added as doubles. *)
Definition special_sum (data : list PrimFloat.float) : PrimFloat.float :=
  fold_left PrimFloat.add (filter (fun x => negb (is_finite x)) data) 0%float.

(** [statistics.mean]: the exact sum over the count, rounded once; with
    an infinity or a not-a-number among the data, their sum as doubles
    over the count. *)
Definition statistics_mean (data : list PrimFloat.float)
  : result PrimFloat.float :=
  let n := Z.of_nat (length data) in
  match data with
  | [] => Raise StatisticsError
  | _ =>
      match exact_ratios data with
      | Some qs => float_of_fraction (fraction_sum qs / inject_Z n)
      | None => Ok (special_sum data / nearest_ratio n 1)%float
      end
  end.

(** [_integer_sqrt_of_frac_rto]: the square root of [n / m] rounded to
    odd. *)
Definition integer_sqrt_of_frac_rto (n m : Z) : Z :=
  let a := Z.sqrt (n / m) in
  Z.lor a (if (a * a * m =? n)%Z then 0 else 1).

(** [_float_sqrt_of_frac]: the square root of [n / m] as a double. *)
Definition float_sqrt_of_frac (n m : Z) : result PrimFloat.float :=
  let q := ((bit_length n - bit_length m - 109) / 2)%Z in
  if (0 <=? q)%Z then
    int_true_divide
      (Z.shiftl (integer_sqrt_of_frac_rto n (Z.shiftl m (2 * q))) q) 1
  else
    int_true_divide
      (integer_sqrt_of_frac_rto (Z.shiftl n (-2 * q)) m) (Z.shiftl 1 (- q)).

(** [statistics.stdev]: with [sx] the sum and [sxx] the sum of the
    squares of [n] data, the square root of
    [(n * sxx - sx * sx) / n / (n - 1)].  With an infinity or a
    not-a-number among the data the mean square is a [float], which has
    no [numerator]. *)
Definition statistics_stdev (data : list PrimFloat.float)
  : result PrimFloat.float :=
  let n := Z.of_nat (length data) in
  if (n <? 2)%Z then Raise StatisticsError
  else
    match exact_ratios data with
    | Some qs =>
        let sx := fraction_sum qs in
        let sxx := fraction_sum (map (fun q => q * q)%Q qs) in
        let ssd := ((inject_Z n * sxx - sx * sx) / inject_Z n)%Q in
        let mss := Qred (ssd / inject_Z (n - 1)) in
        float_sqrt_of_frac (Qnum mss) (Zpos (Qden mss))
    | None => Raise AttributeError
    end.

(** ** The library *)

Record library : Type := mk_library {
  float : string -> option PrimFloat.float;
  mean : list PrimFloat.float -> result PrimFloat.float;
  stdev : list PrimFloat.float -> result PrimFloat.float
}.

Definition cpython : library :=
  mk_library builtin_float statistics_mean statistics_stdev.

(** ** Measurements *)

(** One element of a server's list: a pair of floats, or the pair of
    strings [('ERROR', 'ERROR')]. *)
Inductive measurement : Type :=
| Valid (ping speed : PrimFloat.float)
| ErrorMarker.

(** [m != ('ERROR', 'ERROR')]: a pair of floats never equals a pair of
    strings. *)
Definition not_error (m : measurement) : bool :=
  match m with
  | Valid _ _ => true
  | ErrorMarker => false
  end.

(** [zip( *valid_measurements )] on a list of pairs: the two columns. *)
Definition unzip (ms : list measurement)
  : list PrimFloat.float * list PrimFloat.float :=
  fold_right
    (fun m acc =>
       match m with
       | Valid p s => (p :: fst acc, s :: snd acc)
       | ErrorMarker => acc
       end)
    ([], []) ms.

Definition server_dataset : Type := list (string * list measurement).
Definition corpus : Type := list (string * server_dataset).

(** ** The directory *)

(** What reading one file gives: the rows that [csv.reader] yields and,
    when [open], the decoding or the reader fails, the exception that
    ends the reading after these rows. *)
Record file : Type := mk_file {
  rows : list row;
  failure : option exception
}.

(** [os.listdir(dir_path)], which lists the names or raises, and the
    file behind every name. *)
Record directory : Type := mk_directory {
  listdir : result (list string);
  content : string -> file
}.

Section Program.
Variable lib : library.

(** ** [parse_value] *)

(** [float] raises nothing but [ValueError] on a [str]; the [except]
    clause turns it into [None]. *)
Definition parse_value (value : string) : option PrimFloat.float :=
  if ((value =? "") || (upper value =? "ERROR"))%string then None
  else float lib value.

(** ** [read_csv_files] *)

(** [data[server_name][filename].append(m)] *)
Definition record_measurement (server filename : string) (m : measurement)
    (data : corpus) : corpus :=
  setdefault_update server []
    (setdefault_update filename [] (fun ms => ms ++ [m])) data.

(** The body of the loop over the rows of one file. *)
Definition process_row (filename : string) (r : row) (data : corpus)
  : corpus :=
  match r with
  | [server; ping; speed] =>
      let ping_value := parse_value ping in
      let speed_value := parse_value speed in
      match ping_value, speed_value with
      | Some p, Some s => record_measurement server filename (Valid p s) data
      | None, None => record_measurement server filename ErrorMarker data
      | _, _ => data
      end
  | _ => data
  end.

Definition process_rows (filename : string) (body : list row) (data : corpus)
  : corpus :=
  fold_left (fun d r => process_row filename r d) body data.

(** One file.  [next(reader)] skips the header; on a file that yields no
    row it raises [StopIteration], unless the reading fails first.  A
    failure after some rows ends the loop over them. *)
Definition read_file (filename : string) (f : file) (data : corpus)
  : result corpus :=
  match rows f with
  | [] =>
      match failure f with
      | Some e => Raise e
      | None => Raise StopIteration
      end
  | _ :: body =>
      let data' := process_rows filename body data in
      match failure f with
      | Some e => Raise e
      | None => Ok data'
      end
  end.

Fixpoint read_files (dir : directory) (names : list string) (data : corpus)
    (file_names : list string) : result (corpus * list string) :=
  match names with
  | [] => Ok (data, file_names)
  | filename :: rest =>
      if endswith filename ".csv" then
        data' <- read_file filename (content dir filename) data ;;
        read_files dir rest data' (file_names ++ [filename])
      else read_files dir rest data file_names
  end.

Definition read_csv_files (dir : directory)
  : result (corpus * list string) :=
  names <- listdir dir ;;
  read_files dir (sorted String.ltb (fun name => name) names) [] [].

(** ** [calculate_scores] *)

(** The three results are the stability score, the average speed and
    the average ping.  With fewer than two valid measurements the source
    returns the [int] 0 twice, written here as the double 0. *)
Definition calculate_scores (measurements : list measurement)
  : result (PrimFloat.float * PrimFloat.float * PrimFloat.float) :=
  let valid_measurements := filter not_error measurements in
  if (length valid_measurements <? 2)%nat then
    match float lib "inf" with
    | Some infinite => Ok (0%float, 0%float, infinite)
    | None => Raise ValueError
    end
  else
    let '(pings, speeds) := unzip valid_measurements in
    ping_stdev <- stdev lib pings ;;
    ping_stability <- div 1 (ping_stdev + 1) ;;
    speed_stdev <- stdev lib speeds ;;
    speed_mean <- mean lib speeds ;;
    variation <- div speed_stdev speed_mean ;;
    speed_stability <- div 1 (variation + 1) ;;
    stability_score <- div (ping_stability + speed_stability) 2 ;;
    avg_speed <- mean lib speeds ;;
    avg_ping <- mean lib pings ;;
    Ok (stability_score, avg_speed, avg_ping).

(** ** [rank_nodes] *)

(** One tuple of [rankings]. *)
Record ranking : Type := mk_ranking {
  server_name : string;
  weighted_score : PrimFloat.float;
  stability_score : PrimFloat.float;
  avg_speed : PrimFloat.float;
  avg_ping : PrimFloat.float
}.

(** [[m for file_ms in file_measurements.values() for m in file_ms]] *)
Definition all_measurements (file_measurements : server_dataset)
  : list measurement :=
  flat_map snd file_measurements.

(** Lines 61 to 66: normalisation and the weighted sum. *)
Definition weigh (stability speed ping : PrimFloat.float)
  : result PrimFloat.float :=
  normalized_stability <- div stability 1 ;;
  speed_ratio <- div speed 100 ;;
  let normalized_speed := min speed_ratio 1 in
  ping_ratio <- div ping 1000 ;;
  let normalized_ping := max (1 - ping_ratio) 0 in
  div (4 * normalized_stability + 3 * normalized_speed + 1 * normalized_ping) 8.

(** The body of the loop over [data.items()]. *)
Definition rank_server (item : string * server_dataset) : result ranking :=
  scores <- calculate_scores (all_measurements (snd item)) ;;
  let '(stability, speed, ping) := scores in
  w <- weigh stability speed ping ;;
  Ok (mk_ranking (fst item) w stability speed ping).

Fixpoint rank_loop (items : corpus) (rankings : list ranking)
  : result (list ranking) :=
  match items with
  | [] => Ok rankings
  | item :: rest =>
      r <- rank_server item ;; rank_loop rest (rankings ++ [r])
  end.

Definition rank_nodes (data : corpus) : result (list ranking) :=
  rankings <- rank_loop data [] ;;
  Ok (sorted_reverse PrimFloat.ltb weighted_score rankings).

(** ** [main]: from the directory to the rankings (lines 121 and 122) *)

Definition main_rankings (dir : directory) : result (list ranking) :=
  loaded <- read_csv_files dir ;;
  rank_nodes (fst loaded).

End Program.

(** ** The vocabulary of the specification, on doubles *)

Fixpoint spec_valid_pairs (ms : list measurement)
  : list (PrimFloat.float * PrimFloat.float) :=
  match ms with
  | [] => []
  | Valid p s :: rest => (p, s) :: spec_valid_pairs rest
  | ErrorMarker :: rest => spec_valid_pairs rest
  end.

Definition spec_pings (ms : list measurement) : list PrimFloat.float :=
  map fst (spec_valid_pairs ms).

Definition spec_speeds (ms : list measurement) : list PrimFloat.float :=
  map snd (spec_valid_pairs ms).

(** The stability score from the two standard deviations and the speed
    mean, and the weighted score from the three results of
    [calculate_scores], every operation rounded as Python rounds it. *)
Definition spec_stability (ping_stdev speed_stdev speed_mean : PrimFloat.float)
  : PrimFloat.float :=
  ((1 / (ping_stdev + 1) + 1 / (speed_stdev / speed_mean + 1)) / 2)%float.

Definition spec_weighted (stability speed ping : PrimFloat.float)
  : PrimFloat.float :=
  ((4 * stability + 3 * min (speed / 100) 1
    + 1 * max (1 - ping / 1000) 0) / 8)%float.

(** The number of measurements of a corpus that satisfy [f]. *)
Definition count_in_files (f : measurement -> bool) (files : server_dataset)
  : nat :=
  list_sum (map (fun entry => length (filter f (snd entry))) files).

Definition count_in_corpus (f : measurement -> bool) (data : corpus) : nat :=
  list_sum (map (fun server => count_in_files f (snd server)) data).

Definition is_error (m : measurement) : bool := negb (not_error m).

Definition spec_valid_count (data : corpus) : nat :=
  count_in_corpus not_error data.

Definition spec_error_count (data : corpus) : nat :=
  count_in_corpus is_error data.

(** A field that parses as a floating-point value. *)
Definition spec_valid_number (lib : library) (field : string) : Prop :=
  exists v, float lib field = Some v.

(** A library in which, as in Python, neither the empty string nor a
    spelling of "error" parses as a floating-point value. *)
Definition error_is_no_number (lib : library) : Prop :=
  forall field, spec_explicit_error field = true -> float lib field = None.

(** Every measurement of a corpus, with its server and file, satisfies
    [Q]. *)
Definition corpus_all (Q : string -> string -> measurement -> Prop)
    (data : corpus) : Prop :=
  forall server files filename ms m,
    In (server, files) data -> In (filename, ms) files -> In m ms ->
    Q server filename m.

(** A valid measurement that is the reading of a three-field data row
    of the file [filename] of the directory, for the server [server];
    the fields are not explicit errors. *)
Definition from_row (lib : library) (dir : directory) (names : list string)
    (server filename : string) (m : measurement) : Prop :=
  match m with
  | Valid p s =>
      exists ping speed,
        In filename names /\
        endswith filename ".csv" = true /\
        In [server; ping; speed] (tl (rows (content dir filename))) /\
        spec_explicit_error ping = false /\
        spec_explicit_error speed = false /\
        float lib ping = Some p /\ float lib speed = Some s
  | ErrorMarker => True
  end.

(** A directory with the one file [a.csv], which holds a header and the
    row [srv,-5,10]. *)
Definition directory_negative_row : directory :=
  mk_directory (Ok ["a.csv"%string])
    (fun _ =>
       mk_file [["server"; "ping"; "speed"]; ["srv"; "-5"; "10"]]%string None).




(** *** Vocabulary of the further properties *)

(** Whether [parse_value] gives a field a number. *)
Definition parses (lib : library) (field : string) : bool :=
  match parse_value lib field with
  | Some _ => true
  | None => false
  end.

Definition is_csv (name : string) : bool := endswith name ".csv".

(** The rows after the header of the files with a [.csv] name, the files
    taken in the order of [names]. *)
Definition data_rows (dir : directory) (names : list string) : list row :=
  flat_map (fun name => if is_csv name then tl (rows (content dir name)) else [])
    names.

Definition both_numbers (lib : library) (r : row) : bool :=
  match r with
  | [_; ping; speed] => parses lib ping && parses lib speed
  | _ => false
  end.

Definition neither_number (lib : library) (r : row) : bool :=
  match r with
  | [_; ping; speed] => negb (parses lib ping) && negb (parses lib speed)
  | _ => false
  end.

(** What one row says about one server: at most one measurement. *)
Definition reading (lib : library) (server : string) (r : row)
  : list measurement :=
  match r with
  | [name; ping; speed] =>
      if (name =? server)%string then
        match parse_value lib ping, parse_value lib speed with
        | Some p, Some s => [Valid p s]
        | None, None => [ErrorMarker]
        | _, _ => []
        end
      else []
  | _ => []
  end.

Definition readings (lib : library) (server : string) (body : list row)
  : list measurement :=
  flat_map (reading lib server) body.

(** The measurements the corpus holds for a server and a file. *)
Definition measurements_of (data : corpus) (server filename : string)
  : list measurement :=
  get filename [] (get server [] data).

(** The server names of the rows that are recorded, in row order. *)
Definition recorded_names (lib : library) (body : list row) : list string :=
  flat_map
    (fun r =>
       match r with
       | [name; ping; speed] =>
           if Bool.eqb (parses lib ping) (parses lib speed) then [name] else []
       | _ => []
       end)
    body.

(** The exception that ends the reading of a file, if any:
    the failure of [open] or of the reader, or the [StopIteration] of
    [next(reader)] on a file without a row. *)
Definition file_exception (f : file) : option exception :=
  match failure f with
  | Some e => Some e
  | None =>
      match rows f with
      | [] => Some StopIteration
      | _ :: _ => None
      end
  end.

(** A file with a [.csv] name whose reading ends with an exception. *)
Definition fails (dir : directory) (name : string) : bool :=
  is_csv name &&
  match file_exception (content dir name) with
  | Some _ => true
  | None => false
  end.

(** A directory with two files: [b.csv] holds the row [s,ERROR,] and
    [a.csv] the rows [t,,x], [s,?,], [s,1,oops], [s,2] and [s,nan,inf],
    each after a header. *)
Definition directory_two_files : directory :=
  mk_directory (Ok ["b.csv"; "a.csv"]%string)
    (fun name =>
       if (name =? "b.csv")%string
       then mk_file [["server"; "ping"; "speed"]; ["s"; "ERROR"; ""]]%string None
       else mk_file [["server"; "ping"; "speed"]; ["t"; ""; "x"]; ["s"; "?"; ""];
                     ["s"; "1"; "oops"]; ["s"; "2"]; ["s"; "nan"; "inf"]]%string
                    None).

End Py.

(** * Properties *)

(** ** Arithmetic *)

Lemma rdiv_ok (x y : R) : y <> 0 -> rdiv x y = Ok (x / y).
Proof.
  intros Hy. unfold rdiv. destruct (Req_dec_T y 0) as [E | _]; [contradiction | reflexivity].
Qed.

Lemma pf_div_fin (a b : R) : b <> 0 -> pf_div (Fin a) (Fin b) = Ok (Fin (a / b)).
Proof.
  intros Hb. unfold pf_div. destruct (Req_dec_T b 0); [contradiction | reflexivity].
Qed.

Lemma pf_min_fin (a b : R) : pf_min (Fin a) (Fin b) = Fin (Rmin a b).
Proof.
  unfold pf_min, pf_ltb, Rmin.
  destruct (Rlt_dec b a), (Rle_dec a b); try reflexivity; f_equal; lra.
Qed.

Lemma pf_max_fin (a b : R) : pf_max (Fin a) (Fin b) = Fin (Rmax a b).
Proof.
  unfold pf_max, pf_ltb, Rmax.
  destruct (Rlt_dec a b), (Rle_dec a b); try reflexivity; f_equal; lra.
Qed.

(** ** The statistics of a list *)

Lemma INR_length_pos {A : Type} (xs : list A) : xs <> [] -> 0 < INR (length xs).
Proof.
  destruct xs as [| x xs]; [congruence | intros _].
  apply lt_0_INR. simpl. lia.
Qed.

Lemma mean_spec (xs : list R) : xs <> [] -> mean xs = Ok (spec_mean xs).
Proof.
  destruct xs; [congruence | reflexivity].
Qed.

Lemma stdev_spec (xs : list R) :
  (2 <= length xs)%nat -> stdev xs = Ok (spec_stdev xs).
Proof.
  intros Hn. unfold stdev, variance.
  destruct (Nat.ltb_spec (length xs) 2) as [Hlt | _]; [lia |].
  simpl. unfold spec_stdev, spec_mean.
  rewrite minus_INR by lia. reflexivity.
Qed.

Lemma spec_stdev_nonneg (xs : list R) : 0 <= spec_stdev xs.
Proof. apply sqrt_pos. Qed.

Lemma fsum_nonneg (xs : list R) : Forall (fun x => 0 <= x) xs -> 0 <= fsum xs.
Proof.
  induction 1 as [| x xs Hx _ IH]; simpl; lra.
Qed.

Lemma spec_mean_pos (xs : list R) :
  xs <> [] -> Forall (fun x => 0 <= x) xs -> spec_mean xs <> 0 ->
  0 < spec_mean xs.
Proof.
  intros Hne Hpos Hnz.
  pose proof (INR_length_pos xs Hne) as Hn.
  pose proof (fsum_nonneg xs Hpos) as Hs.
  assert (0 <= spec_mean xs).
  { unfold spec_mean. apply Rmult_le_pos; [assumption |].
    left. now apply Rinv_0_lt_compat. }
  lra.
Qed.

(** ** The valid pairs of a sample list *)

Lemma unzip_valid (ms : list measurement) :
  unzip (filter not_error ms) = (spec_pings ms, spec_speeds ms).
Proof.
  unfold spec_pings, spec_speeds.
  induction ms as [| [p s |] ms IH]; simpl.
  - reflexivity.
  - fold (unzip (filter not_error ms)). rewrite IH. reflexivity.
  - assumption.
Qed.

Lemma filter_valid_length (ms : list measurement) :
  length (filter not_error ms) = length (spec_valid_pairs ms).
Proof.
  induction ms as [| [p s |] ms IH]; simpl; auto.
Qed.

Lemma spec_pings_length (ms : list measurement) :
  length (spec_pings ms) = length (spec_valid_pairs ms).
Proof. apply length_map. Qed.

Lemma spec_speeds_length (ms : list measurement) :
  length (spec_speeds ms) = length (spec_valid_pairs ms).
Proof. apply length_map. Qed.

Lemma two_nonempty {A : Type} (xs : list A) : (2 <= length xs)%nat -> xs <> [].
Proof. destruct xs; simpl; [lia | congruence]. Qed.

(** ** [calculate_scores] and [weigh] on finite values *)

Lemma ping_stability_spec (xs : list R) :
  (2 <= length xs)%nat -> ping_stability xs = Ok (1 / (spec_stdev xs + 1)).
Proof.
  intros Hn. unfold ping_stability. rewrite stdev_spec by assumption. simpl.
  apply rdiv_ok. pose proof (spec_stdev_nonneg xs). lra.
Qed.

Lemma speed_stability_spec (xs : list R) :
  (2 <= length xs)%nat ->
  spec_mean xs <> 0 ->
  spec_stdev xs / spec_mean xs + 1 <> 0 ->
  speed_stability xs = Ok (1 / (spec_stdev xs / spec_mean xs + 1)).
Proof.
  intros Hn Hmu Hcv. unfold speed_stability.
  rewrite stdev_spec by assumption. simpl.
  rewrite mean_spec by now apply two_nonempty. simpl.
  rewrite rdiv_ok by assumption. simpl.
  now apply rdiv_ok.
Qed.

Lemma calculate_scores_unfold (ms : list measurement) :
  (2 <= length (spec_valid_pairs ms))%nat ->
  calculate_scores ms =
    (ping_stab <- ping_stability (spec_pings ms) ;;
     speed_stab <- speed_stability (spec_speeds ms) ;;
     stability <- rdiv (ping_stab + speed_stab) 2 ;;
     speed <- mean (spec_speeds ms) ;;
     ping <- mean (spec_pings ms) ;;
     Ok (Fin stability, Fin speed, Fin ping)).
Proof.
  intros Hn. unfold calculate_scores.
  rewrite filter_valid_length.
  destruct (Nat.ltb_spec (length (spec_valid_pairs ms)) 2) as [Hlt | _]; [lia |].
  now rewrite unzip_valid.
Qed.

Lemma calculate_scores_ok (ms : list measurement) :
  (2 <= length (spec_valid_pairs ms))%nat ->
  spec_mean (spec_speeds ms) <> 0 ->
  spec_stdev (spec_speeds ms) / spec_mean (spec_speeds ms) + 1 <> 0 ->
  calculate_scores ms =
    Ok (Fin (spec_stability (spec_pings ms) (spec_speeds ms)),
        Fin (spec_mean (spec_speeds ms)),
        Fin (spec_mean (spec_pings ms))).
Proof.
  intros Hn Hmu Hcv.
  rewrite calculate_scores_unfold by assumption.
  rewrite ping_stability_spec by now rewrite spec_pings_length.
  rewrite speed_stability_spec; try assumption; [| now rewrite spec_speeds_length].
  simpl. rewrite rdiv_ok by lra. simpl.
  rewrite !mean_spec; [reflexivity | |];
    apply two_nonempty; now rewrite ?spec_pings_length, ?spec_speeds_length.
Qed.

Lemma weigh_fin (stability speed ping : R) :
  weigh (Fin stability) (Fin speed) (Fin ping) =
    Ok (Fin (spec_weighted stability speed ping)).
Proof.
  unfold weigh. rewrite !pf_div_fin by lra. cbn [bind].
  rewrite pf_min_fin. unfold pf_sub. cbn [pf_neg pf_add]. rewrite pf_max_fin.
  cbn [pf_mul pf_add]. rewrite pf_div_fin by lra. unfold spec_weighted.
  do 2 f_equal. unfold Rminus. lra.
Qed.

Lemma cv_nonneg (xs : list R) :
  0 < spec_mean xs -> 0 <= spec_stdev xs / spec_mean xs.
Proof.
  intros Hmu. apply Rmult_le_pos; [apply spec_stdev_nonneg |].
  left. now apply Rinv_0_lt_compat.
Qed.

Lemma no_valid_pairs (ms : list measurement) :
  Forall (eq ErrorMarker) ms -> spec_valid_pairs ms = [].
Proof.
  induction 1 as [| m ms Hm _ IH]; [reflexivity |].
  subst m. assumption.
Qed.

Lemma rank_server_fin (item : string * server_dataset) (stability speed ping : R) :
  calculate_scores (all_measurements (snd item)) =
    Ok (Fin stability, Fin speed, Fin ping) ->
  rank_server item =
    Ok (mk_ranking (fst item) (Fin (spec_weighted stability speed ping))
          (Fin stability) (Fin speed) (Fin ping)).
Proof.
  intros Hs. unfold rank_server. rewrite Hs. cbn [bind].
  rewrite weigh_fin. reflexivity.
Qed.

(** ** Bounds *)

Lemma inv_succ_bounds (a : R) : 0 <= a -> 0 < 1 / (a + 1) <= 1.
Proof.
  intros Ha. unfold Rdiv. rewrite Rmult_1_l. split.
  - apply Rinv_0_lt_compat. lra.
  - rewrite <- Rinv_1. apply Rinv_le_contravar; lra.
Qed.

Lemma spec_stability_bounds (pings speeds : list R) :
  0 < spec_mean speeds -> 0 < spec_stability pings speeds <= 1.
Proof.
  intros Hmu. unfold spec_stability.
  pose proof (inv_succ_bounds _ (spec_stdev_nonneg pings)).
  pose proof (inv_succ_bounds _ (cv_nonneg speeds Hmu)).
  lra.
Qed.

Lemma spec_weighted_bounds (stability speed ping : R) :
  0 < stability <= 1 -> 0 <= speed -> 0 <= ping ->
  0 < spec_weighted stability speed ping <= 1.
Proof.
  intros Hst Hsp Hpg. unfold spec_weighted, Rmin, Rmax.
  destruct (Rle_dec (speed / 100) 1), (Rle_dec (1 - ping / 1000) 0); lra.
Qed.

Lemma spec_weighted_degenerate :
  weigh (Fin 0) (Fin 0) PInf = Ok (Fin 0).
Proof.
  unfold weigh. rewrite !pf_div_fin by lra. cbn [bind].
  rewrite pf_min_fin.
  assert (Hinf : pf_div PInf (Fin 1000) = Ok PInf).
  { unfold pf_div, pf_scale_inf.
    destruct (Req_dec_T 1000 0); [lra |].
    destruct (Rlt_dec 0 1000); [reflexivity | lra]. }
  rewrite Hinf. cbn [bind pf_sub pf_neg pf_add pf_max pf_ltb pf_mul].
  rewrite pf_div_fin by lra. do 2 f_equal.
  unfold Rmin. destruct (Rle_dec (0 / 100) 1); lra.
Qed.

(** ** The builtin [sorted] *)

Section SortedFacts.
Context {A K : Type}.
Variable lt : K -> K -> bool.
Variable key : A -> K.

Lemma insert_perm (x : A) (l : list A) :
  Permutation (x :: l) (insert lt key x l).
Proof.
  induction l as [| y l IH]; simpl.
  - apply Permutation_refl.
  - destruct (lt (key y) (key x)).
    + eapply perm_trans; [apply perm_swap |]. now apply perm_skip.
    + apply Permutation_refl.
Qed.

Lemma sorted_perm (l : list A) : Permutation l (sorted lt key l).
Proof.
  induction l as [| x l IH]; simpl.
  - apply perm_nil.
  - eapply perm_trans; [| apply insert_perm]. now apply perm_skip.
Qed.

Lemma sorted_reverse_perm (l : list A) :
  Permutation l (sorted_reverse lt key l).
Proof.
  unfold sorted_reverse.
  eapply perm_trans; [apply Permutation_rev |].
  eapply perm_trans; [apply sorted_perm |].
  apply Permutation_rev.
Qed.

(** Stability: a class of elements that [lt] never separates keeps its
    order. *)
Variable p : A -> bool.
Hypothesis p_not_lt :
  forall x y, p x = true -> p y = true -> lt (key y) (key x) = false.



End SortedFacts.




(** Ascending order on finite float keys. *)
Section SortedFloats.
Context {A : Type}.
Variable key : A -> pyfloat.




End SortedFloats.


(** ** [rank_nodes] *)


Lemma rank_server_degenerate (item : string * server_dataset) :
  (length (spec_valid_pairs (all_measurements (snd item))) < 2)%nat ->
  rank_server item = Ok (mk_ranking (fst item) (Fin 0) (Fin 0) (Fin 0) PInf).
Proof.
  intros Hlt. unfold rank_server, calculate_scores.
  rewrite filter_valid_length.
  destruct (Nat.ltb_spec (length (spec_valid_pairs (all_measurements (snd item)))) 2);
    [| lia].
  cbn [bind]. now rewrite spec_weighted_degenerate.
Qed.


Lemma rank_loop_spec (items : corpus) :
  forall acc out,
    rank_loop items acc = Ok out ->
    exists rs,
      Forall2 (fun item r => rank_server item = Ok r) items rs /\
      out = acc ++ rs.
Proof.
  induction items as [| item items IH]; intros acc out; cbn [rank_loop].
  - intros [= <-]. exists []. split; [constructor | now rewrite app_nil_r].
  - destruct (rank_server item) as [r |] eqn:Hr; [| discriminate].
    cbn [bind]. intros Hloop.
    destruct (IH _ _ Hloop) as (rs & Hrs & ->).
    exists (r :: rs). split; [now constructor |].
    now rewrite <- app_assoc.
Qed.

Lemma rank_nodes_spec (data : corpus) (out : list ranking) :
  rank_nodes data = Ok out ->
  exists rankings,
    Forall2 (fun item r => rank_server item = Ok r) data rankings /\
    out = sorted_reverse pf_ltb weighted_score rankings.
Proof.
  unfold rank_nodes.
  destruct (rank_loop data []) as [rankings |] eqn:Hloop; [| discriminate].
  cbn [bind]. intros [= <-].
  destruct (rank_loop_spec _ _ _ Hloop) as (rs & Hrs & ->).
  now exists rs.
Qed.


Lemma pf_ltb_fin_true (a b : R) : a < b -> pf_ltb (Fin a) (Fin b) = true.
Proof.
  intros H. cbn [pf_ltb]. destruct (Rlt_dec a b); [reflexivity | contradiction].
Qed.

Lemma pf_ltb_fin_false (a b : R) : b <= a -> pf_ltb (Fin a) (Fin b) = false.
Proof.
  intros H. cbn [pf_ltb]. destruct (Rlt_dec a b); [lra | reflexivity].
Qed.

Lemma rank_server_positive (item : string * server_dataset) :
  let ms := all_measurements (snd item) in
  (2 <= length (spec_valid_pairs ms))%nat ->
  Forall (fun pair => 0 <= fst pair /\ 0 <= snd pair) (spec_valid_pairs ms) ->
  spec_mean (spec_speeds ms) <> 0 ->
  exists w,
    0 < w /\
    rank_server item =
      Ok (mk_ranking (fst item) (Fin w)
            (Fin (spec_stability (spec_pings ms) (spec_speeds ms)))
            (Fin (spec_mean (spec_speeds ms)))
            (Fin (spec_mean (spec_pings ms)))).
Proof.
  intros ms Hn Hpos Hnz.
  assert (Hpings : Forall (fun x => 0 <= x) (spec_pings ms)).
  { unfold spec_pings. apply Forall_map.
    eapply Forall_impl; [| exact Hpos]. now intros pair [H _]. }
  assert (Hspeeds : Forall (fun x => 0 <= x) (spec_speeds ms)).
  { unfold spec_speeds. apply Forall_map.
    eapply Forall_impl; [| exact Hpos]. now intros pair [_ H]. }
  assert (Hne_s : spec_speeds ms <> [])
    by (apply two_nonempty; now rewrite spec_speeds_length).
  assert (Hne_p : spec_pings ms <> [])
    by (apply two_nonempty; now rewrite spec_pings_length).
  pose proof (spec_mean_pos _ Hne_s Hspeeds Hnz) as Hmu.
  assert (Hping : 0 <= spec_mean (spec_pings ms)).
  { unfold spec_mean. apply Rmult_le_pos; [now apply fsum_nonneg |].
    left. apply Rinv_0_lt_compat. now apply INR_length_pos. }
  pose proof (cv_nonneg _ Hmu) as Hcv.
  pose proof (spec_stability_bounds (spec_pings ms) _ Hmu) as Hst.
  pose proof (spec_weighted_bounds _ _ _ Hst (Rlt_le _ _ Hmu) Hping) as Hw.
  eexists. split; [apply Hw |].
  apply rank_server_fin. apply calculate_scores_ok; fold ms; try assumption; lra.
Qed.

(** ** [float] and [parse_value] *)

Lemma upper_char_E (c : ascii) :
  upper_char c = "E"%char -> c = "E"%char \/ c = "e"%char.
Proof.
  destruct c as [[] [] [] [] [] [] [] []]; cbv; intros H;
    try discriminate H; auto.
Qed.

Lemma upper_char_R (c : ascii) :
  upper_char c = "R"%char -> c = "R"%char \/ c = "r"%char.
Proof.
  destruct c as [[] [] [] [] [] [] [] []]; cbv; intros H;
    try discriminate H; auto.
Qed.

Lemma upper_char_O (c : ascii) :
  upper_char c = "O"%char -> c = "O"%char \/ c = "o"%char.
Proof.
  destruct c as [[] [] [] [] [] [] [] []]; cbv; intros H;
    try discriminate H; auto.
Qed.

(** ** The nested dictionaries *)

Lemma list_sum_step (n : nat) (l : list nat) :
  list_sum (n :: l) = (n + list_sum l)%nat.
Proof. reflexivity. Qed.

Section SetdefaultUpdate.
Context {V : Type}.
Variable k0 : string.
Variable default : V.
Variable change : V -> V.

Lemma setdefault_update_in (d : list (string * V)) (k : string) (v : V) :
  In (k, v) (setdefault_update k0 default change d) ->
  In (k, v) d \/
  (k = k0 /\ (v = change default \/ exists v0, In (k0, v0) d /\ v = change v0)).
Proof.
  induction d as [| [k' v'] d IH]; cbn [setdefault_update].
  - intros [[= <- <-] | []]. right. split; [reflexivity | now left].
  - destruct (String.eqb_spec k' k0) as [-> | Hne].
    + intros [[= <- <-] | Hin].
      * right. split; [reflexivity |]. right. exists v'. split; [now left | reflexivity].
      * left. now right.
    + intros [[= <- <-] | Hin].
      * left. now left.
      * destruct (IH Hin) as [Hold | (-> & [-> | (v0 & Hv0 & ->)])].
        -- left. now right.
        -- right. split; [reflexivity | now left].
        -- right. split; [reflexivity |]. right. exists v0.
           split; [now right | reflexivity].
Qed.

Variable size : V -> nat.
Variable step : nat.
Hypothesis size_default : size default = 0%nat.
Hypothesis size_change : forall v, size (change v) = (size v + step)%nat.

Lemma setdefault_update_size (d : list (string * V)) :
  list_sum (map (fun entry => size (snd entry))
              (setdefault_update k0 default change d))
  = (list_sum (map (fun entry => size (snd entry)) d) + step)%nat.
Proof.
  induction d as [| [k' v'] d IH]; cbn [setdefault_update].
  - cbn. rewrite size_change, size_default. lia.
  - destruct (k' =? k0)%string; cbn [map snd]; rewrite !list_sum_step.
    + rewrite size_change. lia.
    + rewrite IH. lia.
Qed.
End SetdefaultUpdate.

(** ** Worked examples *)

Example scan_float_examples :
  scan_float "12.5" = Some (mk_decimal false 125 (-1)) /\
  scan_float " -5 " = Some (mk_decimal true 5 0) /\
  scan_float "+1_000" = Some (mk_decimal false 1000 0) /\
  scan_float "2.5e-3" = Some (mk_decimal false 25 (-4)) /\
  scan_float "5." = Some (mk_decimal false 5 0) /\
  scan_float ".5E2" = Some (mk_decimal false 5 1) /\
  scan_float "" = None /\
  scan_float "Error" = None /\
  scan_float "abc" = None /\
  scan_float "." = None /\
  scan_float "1e" = None /\
  scan_float "1__0" = None /\
  scan_float "12 ms" = None.
Proof. vm_compute. repeat split. Qed.

(** The example of the specification: (10,50) and (20,60) with one error
    row give the means 55 and 15 and the deviation [sqrt 50] on both
    columns. *)
Example server_A_scores :
  calculate_scores [Valid 10 50; Valid 20 60; ErrorMarker]
  = Ok (Fin ((1 / (sqrt 50 + 1) + 1 / (sqrt 50 / 55 + 1)) / 2), Fin 55, Fin 15).
Proof.
  set (ms := [Valid 10 50; Valid 20 60; ErrorMarker]).
  assert (Hmu_s : spec_mean (spec_speeds ms) = 55)
    by (unfold spec_mean; simpl; lra).
  assert (Hmu_p : spec_mean (spec_pings ms) = 15)
    by (unfold spec_mean; simpl; lra).
  assert (Hsd_s : spec_stdev (spec_speeds ms) = sqrt 50).
  { unfold spec_stdev. rewrite Hmu_s. f_equal. simpl. unfold Rsqr. lra. }
  assert (Hsd_p : spec_stdev (spec_pings ms) = sqrt 50).
  { unfold spec_stdev. rewrite Hmu_p. f_equal. simpl. unfold Rsqr. lra. }
  pose proof (sqrt_pos 50) as Hsqrt.
  assert (Hcv : 0 <= sqrt 50 / 55)
    by (apply Rmult_le_pos; [assumption | lra]).
  rewrite calculate_scores_ok.
  - unfold spec_stability. now rewrite Hmu_s, Hmu_p, Hsd_s, Hsd_p.
  - simpl. lia.
  - rewrite Hmu_s. lra.
  - rewrite Hmu_s, Hsd_s. lra.
Qed.

(** * The claims *)

(** C4.  With fewer than two valid pairs, and so also when every sample
    is an error marker, [calculate_scores] returns stability 0, average
    speed 0 and average ping +infinity. *)
Theorem C4_insufficient_data (ms : list measurement) :
  (length (spec_valid_pairs ms) < 2)%nat \/ Forall (eq ErrorMarker) ms ->
  calculate_scores ms = Ok (Fin 0, Fin 0, PInf).
Proof.
  intros H.
  assert (Hlt : (length (spec_valid_pairs ms) < 2)%nat).
  { destruct H as [H | H]; [assumption |].
    rewrite (no_valid_pairs ms H). simpl. lia. }
  unfold calculate_scores. rewrite filter_valid_length.
  destruct (Nat.ltb_spec (length (spec_valid_pairs ms)) 2); [reflexivity | lia].
Qed.

Lemma C4_witness_one_valid_pair :
  calculate_scores [ErrorMarker; Valid 12 34; ErrorMarker]
  = Ok (Fin 0, Fin 0, PInf).
Proof.
  apply (C4_insufficient_data [ErrorMarker; Valid 12 34; ErrorMarker]).
  left. simpl. lia.
Defined.


(** A corpus with a tie: servers a and c have too few valid samples,
    server b has two.  b comes first, and a stays ahead of c. *)
Lemma rank_nodes_with_tie :
  let data : corpus :=
    [("a"%string, [("f.csv"%string, [ErrorMarker])]);
     ("b"%string, [("f.csv"%string, [Valid 10 50; Valid 20 60])]);
     ("c"%string, [("g.csv"%string, [Valid 5 5])])] in
  exists w stability speed ping,
    0 < w /\
    rank_nodes data =
      Ok [mk_ranking "b" (Fin w) (Fin stability) (Fin speed) (Fin ping);
          mk_ranking "a" (Fin 0) (Fin 0) (Fin 0) PInf;
          mk_ranking "c" (Fin 0) (Fin 0) (Fin 0) PInf].
Proof.
  intros data.
  destruct (rank_server_positive
              ("b"%string, [("f.csv"%string, [Valid 10 50; Valid 20 60])]))
    as (w & Hw & Hb).
  { simpl. lia. }
  { simpl. repeat constructor; simpl; lra. }
  { unfold spec_mean. simpl. lra. }
  eexists w, _, _, _. split; [exact Hw |].
  unfold rank_nodes, data. cbn [rank_loop].
  rewrite (rank_server_degenerate ("a"%string, _)) by (simpl; lia).
  cbn [bind]. rewrite Hb. cbn [bind].
  rewrite (rank_server_degenerate ("c"%string, _)) by (simpl; lia).
  cbn [bind app fst].
  unfold sorted_reverse, sorted.
  cbn [rev app fold_right insert weighted_score].
  rewrite (pf_ltb_fin_true 0 w) by assumption.
  cbn [insert weighted_score].
  rewrite (pf_ltb_fin_false 0 0) by lra.
  reflexivity.
Qed.


(** * Further properties *)

(** ** Sorting with a strict weak order *)

Section SortedOrder.
Context {A K : Type}.
Variable lt : K -> K -> bool.
Variable key : A -> K.
Hypothesis lt_asym : forall a b, lt a b = true -> lt b a = false.
Hypothesis lt_negtrans :
  forall a b c, lt b a = false -> lt c b = false -> lt c a = false.

Let not_after (x y : A) : Prop := lt (key y) (key x) = false.

Lemma insert_keeps_order (x : A) (l : list A) :
  StronglySorted not_after l -> StronglySorted not_after (insert lt key x l).
Proof.
  induction 1 as [| y l Hl IH Hy]; cbn [insert].
  - repeat constructor.
  - destruct (lt (key y) (key x)) eqn:Hyx.
    + constructor; [assumption |].
      eapply Permutation_Forall; [apply insert_perm |].
      constructor; [| assumption]. now apply lt_asym.
    + constructor; [now constructor |].
      constructor; [assumption |].
      rewrite Forall_forall in *. intros z Hz.
      eapply lt_negtrans; [exact Hyx | now apply Hy].
Qed.

Lemma sorted_in_order (l : list A) : StronglySorted not_after (sorted lt key l).
Proof.
  induction l as [| x l IH]; cbn [sorted fold_right].
  - constructor.
  - now apply insert_keeps_order.
Qed.
End SortedOrder.

Lemma StronglySorted_filter {A : Type} (R : A -> A -> Prop) (f : A -> bool)
    (l : list A) :
  StronglySorted R l -> StronglySorted R (filter f l).
Proof.
  induction 1 as [| x l Hl IH Hx]; cbn [filter]; [constructor |].
  destruct (f x); [| assumption].
  constructor; [assumption |].
  rewrite Forall_forall in *. intros y Hy. apply Hx.
  now apply filter_In in Hy.
Qed.

Lemma StronglySorted_map {A B : Type} (R : B -> B -> Prop) (g : A -> B)
    (l : list A) :
  StronglySorted (fun a b => R (g a) (g b)) l -> StronglySorted R (map g l).
Proof.
  induction 1 as [| x l Hl IH Hx]; cbn [map]; constructor.
  - assumption.
  - now apply Forall_map.
Qed.

Lemma StronglySorted_weaken {A : Type} (R R' : A -> A -> Prop) (l : list A) :
  (forall a b, R a b -> R' a b) -> StronglySorted R l -> StronglySorted R' l.
Proof.
  intros Himp. induction 1 as [| x l Hl IH Hx]; constructor.
  - assumption.
  - eapply Forall_impl; [apply Himp | assumption].
Qed.

Lemma filter_perm {A : Type} (f : A -> bool) (l l' : list A) :
  Permutation l l' -> Permutation (filter f l) (filter f l').
Proof.
  induction 1 as [| x l l' _ IH | x y l | l l' l'' _ IH1 _ IH2]; cbn [filter].
  - constructor.
  - destruct (f x); [now constructor | assumption].
  - destruct (f x), (f y); try apply Permutation_refl. apply perm_swap.
  - eapply perm_trans; eassumption.
Qed.

(** ** The order of strings *)

Lemma string_ltb_lt (a b : string) :
  String.ltb a b = true <-> String_as_OT.lt a b.
Proof.
  unfold String.ltb. rewrite <- String_as_OT.cmp_lt. unfold String_as_OT.cmp.
  destruct (String.compare a b); split; congruence.
Qed.

Lemma string_ltb_asym (a b : string) :
  String.ltb a b = true -> String.ltb b a = false.
Proof.
  intros Hab. destruct (String.ltb b a) eqn:Hba; [| reflexivity].
  apply string_ltb_lt in Hab, Hba.
  pose proof (String_as_OT.lt_trans _ _ _ Hab Hba) as Haa.
  apply String_as_OT.lt_not_eq in Haa. now elim Haa.
Qed.

Lemma string_ltb_total (a b : string) :
  String.ltb a b = false -> String.ltb b a = false -> a = b.
Proof.
  unfold String.ltb. rewrite (String.compare_antisym b a).
  destruct (String.compare a b) eqn:Hc; cbn; try discriminate.
  intros _ _. now apply String.compare_eq_iff.
Qed.

Lemma string_ltb_negtrans (a b c : string) :
  String.ltb b a = false -> String.ltb c b = false -> String.ltb c a = false.
Proof.
  intros Hba Hcb. destruct (String.ltb c a) eqn:Hca; [| reflexivity].
  destruct (String.ltb a b) eqn:Hab.
  - apply string_ltb_lt in Hca, Hab.
    pose proof (String_as_OT.lt_trans _ _ _ Hca Hab) as Hlt.
    apply string_ltb_lt in Hlt. congruence.
  - pose proof (string_ltb_total _ _ Hab Hba) as ->. congruence.
Qed.

Lemma string_leb_ltb (a b : string) :
  String.leb a b = true <-> String.ltb b a = false.
Proof.
  unfold String.leb, String.ltb. rewrite (String.compare_antisym b a).
  destruct (String.compare a b); cbn; split; congruence.
Qed.

(** ** [read_csv_files]: the files *)

Lemma read_files_names (files : directory) :
  forall data file_names data' file_names',
    read_files files data file_names = Ok (data', file_names') ->
    file_names' = file_names ++ map fst (filter is_csv files).
Proof.
  induction files as [| [filename rows] files IH];
    intros data file_names data' file_names'; cbn [read_files filter].
  - intros [= _ <-]. cbn. now rewrite app_nil_r.
  - unfold is_csv at 1. cbn [fst].
    destruct (endswith filename ".csv").
    + destruct rows as [| header body]; [discriminate |].
      cbn [read_file bind map]. intros H. apply IH in H.
      now rewrite <- app_assoc in H.
    + apply IH.
Qed.

(** X2.  The file names that [read_csv_files] returns are the names of
    the directory that end in [.csv], each as often as it is listed, in
    ascending order of the strings. *)
Theorem X2_file_names_are_the_sorted_csv_names
    (dir : directory) (data : corpus) (file_names : list string) :
  read_csv_files dir = Ok (data, file_names) ->
  Permutation file_names (map fst (filter is_csv dir)) /\
  StronglySorted (fun a b => String.leb a b = true) file_names /\
  (forall filename,
     In filename file_names <->
     In filename (map fst dir) /\ endswith filename ".csv" = true).
Proof.
  unfold read_csv_files. intros Hread.
  apply read_files_names in Hread. cbn [app] in Hread. subst file_names.
  assert (Hperm : Permutation (map fst (filter is_csv (sorted String.ltb fst dir)))
                    (map fst (filter is_csv dir))).
  { apply Permutation_map. apply filter_perm.
    apply Permutation_sym, (sorted_perm String.ltb fst). }
  split; [exact Hperm |]. split.
  - apply StronglySorted_map. apply StronglySorted_filter.
    eapply StronglySorted_weaken;
      [| apply (sorted_in_order String.ltb fst
                  string_ltb_asym string_ltb_negtrans)].
    intros a b H. now apply string_leb_ltb.
  - intros filename. split.
    + intros Hin. apply (Permutation_in _ Hperm) in Hin.
      apply in_map_iff in Hin. destruct Hin as ([fn rows] & <- & Hin).
      apply filter_In in Hin. destruct Hin as [Hin Hcsv].
      split; [apply in_map_iff; now exists (fn, rows) | exact Hcsv].
    + intros [Hin Hcsv]. apply (Permutation_in _ (Permutation_sym Hperm)).
      apply in_map_iff in Hin. destruct Hin as ([fn rows] & <- & Hin).
      apply in_map_iff. exists (fn, rows). split; [reflexivity |].
      apply filter_In. now split.
Qed.

Lemma X2_witness_three_files :
  let dir : directory :=
    [("b.csv"%string, [["server"; "ping"; "speed"]; ["s"; "ERROR"; ""]]%string);
     ("notes.txt"%string, []);
     ("a.csv"%string, [["server"; "ping"; "speed"]]%string)] in
  StronglySorted (fun a b => String.leb a b = true) ["a.csv"; "b.csv"]%string.
Proof.
  intros dir.
  apply (X2_file_names_are_the_sorted_csv_names dir
           [("s"%string, [("b.csv"%string, [ErrorMarker])])]
           ["a.csv"; "b.csv"]%string).
  vm_compute. reflexivity.
Defined.

(** ** [read_csv_files]: the keys of the corpus *)

Section DictionaryKeys.
Context {V : Type}.
Variable k0 : string.
Variable default : V.
Variable change : V -> V.

Lemma setdefault_update_keys (d : list (string * V)) :
  (In k0 (map fst d) /\
   map fst (setdefault_update k0 default change d) = map fst d) \/
  (~ In k0 (map fst d) /\
   map fst (setdefault_update k0 default change d) = map fst d ++ [k0]).
Proof.
  induction d as [| [k v] d IH]; cbn [setdefault_update map fst].
  - right. split; [intros [] | reflexivity].
  - destruct (String.eqb_spec k k0) as [-> | Hne].
    + left. split; [now left | reflexivity].
    + destruct IH as [[Hin Heq] | [Hnin Heq]]; cbn [map fst]; rewrite Heq.
      * left. split; [now right | reflexivity].
      * right. split; [| reflexivity]. intros [Hk | Hin]; [congruence | contradiction].
Qed.

Lemma setdefault_update_nodup (d : list (string * V)) :
  NoDup (map fst d) -> NoDup (map fst (setdefault_update k0 default change d)).
Proof.
  intros Hnd. destruct (setdefault_update_keys d) as [[_ ->] | [Hnin ->]].
  - assumption.
  - apply NoDup_app; repeat split; try assumption.
    + repeat constructor. intros [].
    + intros k Hk [<- | []]. contradiction.
Qed.

Lemma get_setdefault_update (d : list (string * V)) (k : string) :
  get k default (setdefault_update k0 default change d)
  = if (k =? k0)%string then change (get k0 default d) else get k default d.
Proof.
  induction d as [| [k' v] d IH]; cbn [setdefault_update get].
  - rewrite String.eqb_sym. destruct (k =? k0)%string; reflexivity.
  - destruct (String.eqb_spec k' k0) as [E0 | N0]; cbn [get].
    + destruct (String.eqb_spec k' k) as [E | N],
               (String.eqb_spec k k0) as [E' | N']; congruence.
    + destruct (String.eqb_spec k' k) as [E | N].
      * destruct (String.eqb_spec k k0) as [E' | N']; congruence.
      * exact IH.
Qed.
End DictionaryKeys.

Lemma well_keyed_empty (file_names : list string) : well_keyed file_names [].
Proof. split; [constructor | intros server files []]. Qed.

Lemma well_keyed_more_names (names names' : list string) (data : corpus) :
  (forall n, In n names -> In n names') ->
  well_keyed names data -> well_keyed names' data.
Proof.
  intros Hsub [Hnd Hfiles]. split; [assumption |].
  intros server files Hin.
  destruct (Hfiles server files Hin) as (H1 & H2 & H3).
  repeat split; try assumption; destruct (H3 _ _ H) as [H4 H5]; auto.
Qed.

Lemma append_file_shape (file_names : list string) (filename : string)
    (m : measurement) (files : server_dataset) :
  In filename file_names ->
  files = [] \/
  (NoDup (map fst files) /\
   forall fn ms, In (fn, ms) files -> ms <> [] /\ In fn file_names) ->
  let files' := setdefault_update filename [] (fun ms => ms ++ [m]) files in
  files' <> [] /\ NoDup (map fst files') /\
  forall fn ms, In (fn, ms) files' -> ms <> [] /\ In fn file_names.
Proof.
  intros Hname Hshape files'. subst files'. split; [| split].
  - destruct files as [| [k v] files]; cbn [setdefault_update];
      [discriminate |]. destruct (k =? filename)%string; discriminate.
  - apply setdefault_update_nodup.
    destruct Hshape as [-> | [H _]]; [constructor | assumption].
  - intros fn ms H. apply setdefault_update_in in H.
    destruct H as [Hold | (-> & [-> | (ms0 & Hms0 & ->)])].
    + destruct Hshape as [-> | [_ H]]; [destruct Hold |].
      now apply (H fn ms).
    + split; [discriminate | assumption].
    + split; [destruct ms0; discriminate | assumption].
Qed.

Lemma record_measurement_well_keyed (file_names : list string)
    (server filename : string) (m : measurement) (data : corpus) :
  In filename file_names -> well_keyed file_names data ->
  well_keyed file_names (record_measurement server filename m data).
Proof.
  intros Hname [Hnd Hfiles]. unfold record_measurement. split.
  - now apply setdefault_update_nodup.
  - intros server' files' Hin.
    apply setdefault_update_in in Hin.
    destruct Hin as [Hold | (-> & [-> | (files0 & Hfiles0 & ->)])].
    + exact (Hfiles _ _ Hold).
    + apply append_file_shape; [assumption | now left].
    + apply append_file_shape; [assumption |]. right.
      destruct (Hfiles _ _ Hfiles0) as (_ & H1 & H2). now split.
Qed.

Lemma process_rows_well_keyed (file_names : list string) (filename : string)
    (rows : list row) :
  In filename file_names ->
  forall data,
    well_keyed file_names data ->
    well_keyed file_names (process_rows filename rows data).
Proof.
  intros Hname. unfold process_rows.
  induction rows as [| r rows IH]; intros data Hdata; cbn [fold_left];
    [assumption |].
  apply IH.
  destruct r as [| server [| ping [| speed [| extra r]]]]; try assumption.
  cbn [process_row].
  destruct (parse_value ping), (parse_value speed); try assumption;
    now apply record_measurement_well_keyed.
Qed.

Lemma read_files_well_keyed (files : directory) :
  forall data file_names data' file_names',
    well_keyed file_names data ->
    read_files files data file_names = Ok (data', file_names') ->
    well_keyed file_names' data'.
Proof.
  induction files as [| [filename rows] files IH];
    intros data file_names data' file_names' Hdata; cbn [read_files].
  - now intros [= <- <-].
  - destruct (endswith filename ".csv"); [| now apply IH].
    destruct rows as [| header body]; [discriminate |].
    cbn [read_file bind]. apply IH.
    apply process_rows_well_keyed.
    + apply in_or_app. right. now left.
    + eapply well_keyed_more_names; [| exact Hdata].
      intros n Hn. apply in_or_app. now left.
Qed.

(** X3.  In the corpus that [read_csv_files] returns no server key and,
    within a server, no file key occurs twice; every server has a file,
    every file of a server has a measurement, and every file key is one
    of the returned file names. *)
Theorem X3_corpus_keys
    (dir : directory) (data : corpus) (file_names : list string) :
  read_csv_files dir = Ok (data, file_names) ->
  NoDup (map fst data) /\
  forall server files,
    In (server, files) data ->
    files <> [] /\ NoDup (map fst files) /\
    forall filename ms,
      In (filename, ms) files -> ms <> [] /\ In filename file_names.
Proof.
  unfold read_csv_files. intros Hread.
  exact (read_files_well_keyed _ _ _ _ _ (well_keyed_empty []) Hread).
Qed.

Lemma X3_witness_two_files :
  let dir : directory :=
    [("b.csv"%string, [["server"; "ping"; "speed"]; ["s"; "ERROR"; ""]]%string);
     ("a.csv"%string,
      [["server"; "ping"; "speed"]; ["t"; ""; "x"]; ["s"; "?"; ""]]%string)] in
  let data : corpus :=
    [("t"%string, [("a.csv"%string, [ErrorMarker])]);
     ("s"%string, [("a.csv"%string, [ErrorMarker]);
                   ("b.csv"%string, [ErrorMarker])])] in
  NoDup (map fst data).
Proof.
  intros dir data.
  apply (X3_corpus_keys dir data ["a.csv"; "b.csv"]%string).
  vm_compute. reflexivity.
Defined.

(** ** [calculate_scores]: what the scores depend on *)







(** ** The weighted score *)






(** ** [rank_nodes]: one ranking per server, or no ranking at all *)

Lemma rank_server_name (item : string * server_dataset) (r : ranking) :
  rank_server item = Ok r -> server_name r = fst item.
Proof.
  unfold rank_server.
  destruct (calculate_scores (all_measurements (snd item)))
    as [[[stability speed] ping] |]; [| discriminate].
  cbn [bind]. destruct (weigh stability speed ping); [| discriminate].
  cbn [bind]. now intros [= <-].
Qed.

Lemma rankings_names (data : corpus) (rankings : list ranking) :
  Forall2 (fun item r => rank_server item = Ok r) data rankings ->
  map server_name rankings = map fst data.
Proof.
  induction 1 as [| item r data rankings Hr _ IH]; cbn [map]; [reflexivity |].
  now rewrite (rank_server_name _ _ Hr), IH.
Qed.

(** X11.  When [rank_nodes] returns, its output has exactly one ranking
    for every server of the corpus: the names of the output are the keys
    of the corpus in another order. *)
Theorem X11_one_ranking_per_server (data : corpus) (out : list ranking) :
  rank_nodes data = Ok out ->
  Permutation (map server_name out) (map fst data) /\
  length out = length data.
Proof.
  intros Hout.
  destruct (rank_nodes_spec data out Hout) as (rankings & Hrs & ->).
  assert (Hperm : Permutation (map server_name
                                 (sorted_reverse pf_ltb weighted_score rankings))
                    (map fst data)).
  { rewrite <- (rankings_names _ _ Hrs). apply Permutation_map.
    apply Permutation_sym, sorted_reverse_perm. }
  split; [exact Hperm |].
  apply Permutation_length in Hperm. now rewrite !length_map in Hperm.
Qed.

Lemma X11_witness_three_servers :
  let data : corpus :=
    [("a"%string, [("f.csv"%string, [ErrorMarker])]);
     ("b"%string, [("f.csv"%string, [Valid 10 50; Valid 20 60])]);
     ("c"%string, [("g.csv"%string, [Valid 5 5])])] in
  exists out,
    rank_nodes data = Ok out /\
    Permutation (map server_name out) ["a"; "b"; "c"]%string /\
    length out = 3%nat.
Proof.
  intros data.
  destruct rank_nodes_with_tie as (w & stability & speed & ping & _ & Hout).
  fold data in Hout.
  eexists. split; [exact Hout |].
  exact (X11_one_ranking_per_server data _ Hout).
Defined.

(** ** [visualize_performance]: the plotted series *)

Lemma filter_split_length {A : Type} (f : A -> bool) (l : list A) :
  (length l - length (filter f l))%nat
  = length (filter (fun x => negb (f x)) l).
Proof.
  assert (H : (length (filter f l) + length (filter (fun x => negb (f x)) l))%nat
              = length l).
  { induction l as [| x l IH]; cbn [filter length]; [reflexivity |].
    destruct (f x); cbn [negb length]; lia. }
  lia.
Qed.

Lemma plot_file_spec (server : string) (file_measurements : server_dataset)
    (filename : string) (acc : series) :
  plot_file server file_measurements filename acc
  = Ok (mk_series
          (append_point server
             (spec_point spec_pings file_measurements filename) (ping_data acc))
          (append_point server
             (spec_point spec_speeds file_measurements filename) (speed_data acc))
          (append_point server
             (spec_error_point file_measurements filename) (error_data acc))).
Proof.
  unfold plot_file, spec_point, spec_error_point.
  set (ms := get filename [] file_measurements).
  rewrite filter_split_length. fold is_error.
  change (fun x => negb (not_error x)) with is_error.
  pose proof (unzip_valid ms) as Hunzip.
  pose proof (filter_valid_length ms) as Hlen.
  destruct (filter not_error ms) as [| m valid] eqn:Hvalid.
  - cbn [length] in Hlen.
    assert (Hp : spec_pings ms = [])
      by (apply length_zero_iff_nil; now rewrite spec_pings_length).
    assert (Hs : spec_speeds ms = [])
      by (apply length_zero_iff_nil; now rewrite spec_speeds_length).
    rewrite Hp, Hs. reflexivity.
  - rewrite Hunzip. cbn [length] in Hlen.
    assert (Hp : spec_pings ms <> []).
    { intros H. apply (f_equal (@length R)) in H.
      rewrite spec_pings_length in H. cbn in H. lia. }
    assert (Hs : spec_speeds ms <> []).
    { intros H. apply (f_equal (@length R)) in H.
      rewrite spec_speeds_length in H. cbn in H. lia. }
    rewrite !mean_spec by assumption. cbn [bind ping_data speed_data error_data].
    destruct (spec_pings ms); [now elim Hp |].
    destruct (spec_speeds ms); [now elim Hs |]. reflexivity.
Qed.

Section AppendPoints.
Context {V : Type}.
Variable server : string.

Lemma append_point_new (v : V) (d : list (string * list V)) :
  ~ In server (map fst d) -> append_point server v d = d ++ [(server, [v])].
Proof.
  unfold append_point.
  induction d as [| [k vs] d IH]; intros Hnin; cbn [setdefault_update app].
  - reflexivity.
  - cbn [map fst In] in Hnin.
    destruct (String.eqb_spec k server) as [-> | _]; [tauto |].
    rewrite IH by tauto. reflexivity.
Qed.

Lemma append_point_last (v : V) (d : list (string * list V)) (vs : list V) :
  ~ In server (map fst d) ->
  append_point server v (d ++ [(server, vs)]) = d ++ [(server, vs ++ [v])].
Proof.
  unfold append_point.
  induction d as [| [k vs'] d IH]; intros Hnin; cbn [setdefault_update app].
  - now rewrite String.eqb_refl.
  - cbn [map fst In] in Hnin.
    destruct (String.eqb_spec k server) as [-> | _]; [tauto |].
    rewrite IH by tauto. reflexivity.
Qed.

Lemma append_points_last (point : string -> V) (file_names : list string) :
  forall (d : list (string * list V)) (vs : list V),
    ~ In server (map fst d) ->
    fold_left (fun acc filename => append_point server (point filename) acc)
      file_names (d ++ [(server, vs)])
    = d ++ [(server, vs ++ map point file_names)].
Proof.
  induction file_names as [| f file_names IH]; intros d vs Hnin;
    cbn [fold_left map].
  - now rewrite app_nil_r.
  - rewrite append_point_last by assumption.
    rewrite IH by assumption. now rewrite <- app_assoc.
Qed.

Lemma append_points_new (point : string -> V) (file_names : list string)
    (d : list (string * list V)) :
  ~ In server (map fst d) ->
  fold_left (fun acc filename => append_point server (point filename) acc)
    file_names d
  = match file_names with
    | [] => d
    | _ => d ++ [(server, map point file_names)]
    end.
Proof.
  intros Hnin. destruct file_names as [| f file_names]; [reflexivity |].
  cbn [fold_left]. rewrite append_point_new by assumption.
  now rewrite append_points_last.
Qed.
End AppendPoints.

Lemma plot_files_spec (server : string) (file_measurements : server_dataset)
    (file_names : list string) :
  forall acc,
    plot_files server file_measurements file_names acc
    = Ok (mk_series
            (fold_left
               (fun d f =>
                  append_point server (spec_point spec_pings file_measurements f) d)
               file_names (ping_data acc))
            (fold_left
               (fun d f =>
                  append_point server (spec_point spec_speeds file_measurements f) d)
               file_names (speed_data acc))
            (fold_left
               (fun d f =>
                  append_point server (spec_error_point file_measurements f) d)
               file_names (error_data acc))).
Proof.
  induction file_names as [| f file_names IH]; intros acc;
    cbn [plot_files fold_left].
  - now destruct acc.
  - rewrite plot_file_spec. cbn [bind]. now rewrite IH.
Qed.

Section Lines.
Context {V : Type}.
Variable point : server_dataset -> string -> V.
Variable file_names : list string.

Let add_server (d : list (string * list V)) (item : string * server_dataset)
  : list (string * list V) :=
  fold_left (fun acc f => append_point (fst item) (point (snd item) f) acc)
    file_names d.

Lemma lines_of_distinct_servers (items : corpus) :
  NoDup (map fst items) ->
  forall d,
    (forall server, In server (map fst items) -> ~ In server (map fst d)) ->
    fold_left add_server items d = d ++ spec_lines point items file_names.
Proof.
  unfold spec_lines.
  induction items as [| [server fm] items IH]; intros Hnd d Hfresh;
    cbn [fold_left map].
  - destruct file_names; now rewrite app_nil_r.
  - cbn [map fst] in Hnd. inversion Hnd as [| ? ? Hnotin Hnd']; subst.
    unfold add_server at 2. cbn [fst snd].
    rewrite append_points_new by (apply Hfresh; now left).
    destruct file_names as [| f names] eqn:Hnames.
    + rewrite IH; [reflexivity | assumption |].
      intros k Hk. apply Hfresh. now right.
    + rewrite IH; [now rewrite <- app_assoc | assumption |].
      intros k Hk. rewrite map_app, in_app_iff. cbn [map fst In].
      intros [Hd | [<- | []]]; [| contradiction].
      revert Hd. apply Hfresh. now right.
Qed.
End Lines.

Lemma plot_servers_spec (items : corpus) (file_names : list string) :
  forall acc,
    plot_servers items file_names acc
    = Ok (mk_series
            (fold_left
               (fun d item =>
                  fold_left
                    (fun acc f =>
                       append_point (fst item)
                         (spec_point spec_pings (snd item) f) acc)
                    file_names d)
               items (ping_data acc))
            (fold_left
               (fun d item =>
                  fold_left
                    (fun acc f =>
                       append_point (fst item)
                         (spec_point spec_speeds (snd item) f) acc)
                    file_names d)
               items (speed_data acc))
            (fold_left
               (fun d item =>
                  fold_left
                    (fun acc f =>
                       append_point (fst item) (spec_error_point (snd item) f) acc)
                    file_names d)
               items (error_data acc))).
Proof.
  induction items as [| [server fm] items IH]; intros acc;
    cbn [plot_servers fold_left].
  - now destruct acc.
  - rewrite plot_files_spec. cbn [bind]. now rewrite IH.
Qed.

Lemma visualize_performance_data_spec (data : corpus) (file_names : list string) :
  NoDup (map fst data) ->
  visualize_performance_data data file_names = Ok (spec_series data file_names).
Proof.
  intros Hnd. unfold visualize_performance_data, spec_series.
  rewrite plot_servers_spec. cbn [ping_data speed_data error_data].
  rewrite !(lines_of_distinct_servers _ file_names data Hnd []);
    try (intros server _ []).
  reflexivity.
Qed.

(** X15.  For a corpus with distinct server keys the preparation of the
    plot never raises, and each of the three dictionaries it builds has,
    for every server in corpus order, one entry per file name: the mean
    of the valid pings (speeds) of that file, or [None] when the server
    has no valid measurement there, and the number of error markers.
    With no file name the dictionaries stay empty. *)
Theorem X15_plotted_series (data : corpus) (file_names : list string) :
  NoDup (map fst data) ->
  visualize_performance_data data file_names
  = Ok (spec_series data file_names) /\
  forall s,
    visualize_performance_data data file_names = Ok s ->
    (forall server values,
       In (server, values) (ping_data s) -> length values = length file_names) /\
    (forall server values,
       In (server, values) (speed_data s) -> length values = length file_names) /\
    (forall server values,
       In (server, values) (error_data s) -> length values = length file_names).
Proof.
  intros Hnd. pose proof (visualize_performance_data_spec data file_names Hnd) as Hspec.
  split; [exact Hspec |].
  intros s Hs. rewrite Hspec in Hs. injection Hs as <-.
  unfold spec_series, spec_lines. cbn [ping_data speed_data error_data].
  destruct file_names as [| f names]; [repeat split; intros ? ? [] |].
  repeat split; intros server values Hin; apply in_map_iff in Hin;
    destruct Hin as (item & Heq & _); injection Heq as _ Hv;
    rewrite <- Hv; cbn [length]; now rewrite length_map.
Qed.

Lemma X15_witness_two_servers :
  let data : corpus :=
    [("a"%string, [("f.csv"%string, [ErrorMarker; ErrorMarker])]);
     ("b"%string, [("g.csv"%string, [ErrorMarker])])] in
  visualize_performance_data data ["f.csv"; "g.csv"]%string
  = Ok (mk_series
          [("a"%string, [None; None]); ("b"%string, [None; None])]
          [("a"%string, [None; None]); ("b"%string, [None; None])]
          [("a"%string, [2; 0]%nat); ("b"%string, [0; 1]%nat)]).
Proof.
  intros data.
  refine (proj1 (X15_plotted_series data ["f.csv"; "g.csv"]%string _)).
  cbn. repeat constructor; cbn; intuition discriminate.
Defined.

(** * Properties of the embedding on doubles *)

Import Py.

(** ** Division *)

Lemma py_digits_double (m : positive) :
  Zpos (digits2_pos m~0) = (Zpos (digits2_pos m) + 1)%Z.
Proof. cbn [digits2_pos]. lia. Qed.

Lemma py_div_eucl_exact (a b : Z) :
  (0 < b)%Z -> Z.div_eucl (a * b) b = (a, 0%Z).
Proof.
  intros Hb.
  pose proof (Z_div_mult_full a b ltac:(lia)) as Hq.
  pose proof (Z_mod_mult a b) as Hr.
  unfold Z.div, Z.modulo in Hq, Hr.
  destruct (Z.div_eucl (a * b) b) as [q r]. now subst.
Qed.

(** A double divided by 1 is that double: the quotient of the mantissas
    is exact. *)
Lemma py_SF64div_one (x : spec_float) :
  valid_binary x = true ->
  SF64div x (S754_finite false 4503599627370496 (-52)) = x.
Proof.
  destruct x as [s | s | | s m e]; cbn [SF64div SFdiv].
  - intros _. unfold SF64div, SFdiv. now rewrite xorb_false_r.
  - intros _. unfold SF64div, SFdiv. now rewrite xorb_false_r.
  - reflexivity.
  - unfold valid_binary, SpecFloat.valid_binary, bounded, canonical_mantissa.
    intros Hv. apply andb_prop in Hv. destruct Hv as [Hc Hb].
    apply Z.eqb_eq in Hc. apply Z.leb_le in Hb.
    unfold fexp, SpecFloat.emin, emax, prec in *.
    unfold SF64div, SFdiv, SFdiv_core_binary.
    cbn [Zdigits2]. rewrite xorb_false_r.
    change (Z.pos (digits2_pos 4503599627370496)) with 53%Z.
    unfold fexp, SpecFloat.emin.
    set (d := Z.pos (digits2_pos m)) in *.
    assert (Hd : (0 < d)%Z) by (unfold d; lia).
    change IntDef.Z.max with Z.max in *. change IntDef.Z.min with Z.min in *.
    change IntDef.Z.div_eucl with Z.div_eucl.
    assert (Hcase : (d = 53 /\ -1074 < e)%Z \/ (d <= 53 /\ e = -1074)%Z) by lia.
    destruct Hcase as [[Hd53 He] | [Hd53 He]].
    + replace (Z.min (Z.max (d + e - (53 + -52) - 53) (3 - 1024 - 53)) (e - -52))
        with (e - 1)%Z by lia.
      replace (e - -52 - (e - 1))%Z with 53%Z by lia.
      change (IntDef.Z.shiftl (Z.pos m) 53) with (Z.shiftl (Z.pos m) 53).
      rewrite Z.shiftl_mul_pow2 by lia.
      change (2 ^ 53)%Z with (2 * 4503599627370496)%Z.
      rewrite Z.mul_assoc, py_div_eucl_exact by lia.
      change (new_location 4503599627370496 0) with loc_Exact.
      unfold binary_round_aux, shr_fexp, fexp, SpecFloat.emin.
      replace (Z.pos m * 2)%Z with (Z.pos m~0) by lia.
      cbn [Zdigits2]. rewrite py_digits_double. fold d.
      change IntDef.Z.max with Z.max.
      replace (Z.max (d + 1 + (e - 1) - 53) (3 - 1024 - 53) - (e - 1))%Z
        with 1%Z by lia.
      cbn [shr shr_record_of_loc SpecFloat.iter_pos shr_1 shr_m
           loc_of_shr_record round_nearest_even Zdigits2 orb].
      fold d.
      replace (Z.max (d + (e - 1 + 1) - 53) (3 - 1024 - 53) - (e - 1 + 1))%Z
        with 0%Z by lia.
      cbn [shr shr_m].
      replace (e - 1 + 1)%Z with e by lia.
      destruct (Z.leb_spec e (1024 - 53)); [reflexivity | lia].
    + subst e.
      replace (Z.min (Z.max (d + -1074 - (53 + -52) - 53) (3 - 1024 - 53))
                 (-1074 - -52))
        with (-1074)%Z by lia.
      change (-1074 - -52 - -1074)%Z with 52%Z.
      change (IntDef.Z.shiftl (Z.pos m) 52) with (Z.shiftl (Z.pos m) 52).
      rewrite Z.shiftl_mul_pow2 by lia.
      change (2 ^ 52)%Z with 4503599627370496%Z.
      rewrite py_div_eucl_exact by lia.
      change (new_location 4503599627370496 0) with loc_Exact.
      unfold binary_round_aux, shr_fexp, fexp, SpecFloat.emin.
      cbn [Zdigits2]. fold d.
      change IntDef.Z.max with Z.max.
      replace (Z.max (d + -1074 - 53) (3 - 1024 - 53) - -1074)%Z with 0%Z by lia.
      cbn [shr shr_record_of_loc shr_m loc_of_shr_record round_nearest_even
           Zdigits2].
      fold d.
      replace (Z.max (d + -1074 - 53) (3 - 1024 - 53) - -1074)%Z with 0%Z by lia.
      cbn [shr shr_m]. reflexivity.
Qed.

Lemma py_div_one (x : PrimFloat.float) : (x / 1)%float = x.
Proof.
  apply Prim2SF_inj. rewrite div_spec.
  change (Prim2SF 1) with (S754_finite false 4503599627370496 (-52)).
  apply py_SF64div_one. apply Prim2SF_valid.
Qed.

Lemma py_div_ok (x y : PrimFloat.float) :
  (y =? 0)%float = false -> div x y = Ok (x / y)%float.
Proof. unfold div. now intros ->. Qed.

Lemma py_div_zero (x y : PrimFloat.float) :
  (y =? 0)%float = true -> div x y = Raise ZeroDivisionError.
Proof. unfold div. now intros ->. Qed.

Lemma py_div_cases (x y : PrimFloat.float) :
  ((y =? 0)%float = false /\ div x y = Ok (x / y)%float) \/
  ((y =? 0)%float = true /\ div x y = Raise ZeroDivisionError).
Proof.
  unfold div. destruct (y =? 0)%float; [right | left]; now split.
Qed.

(** ** The valid pairs of a sample list *)

Lemma py_unzip_valid (ms : list measurement) :
  unzip (filter not_error ms) = (spec_pings ms, spec_speeds ms).
Proof.
  unfold spec_pings, spec_speeds.
  induction ms as [| [p s |] ms IH]; cbn [filter not_error unzip fold_right].
  - reflexivity.
  - fold (unzip (filter not_error ms)). rewrite IH. reflexivity.
  - assumption.
Qed.

Lemma py_filter_valid_length (ms : list measurement) :
  length (filter not_error ms) = length (spec_valid_pairs ms).
Proof.
  induction ms as [| [p s |] ms IH]; cbn [filter not_error spec_valid_pairs length];
    congruence.
Qed.

Lemma py_spec_pings_length (ms : list measurement) :
  length (spec_pings ms) = length (spec_valid_pairs ms).
Proof. apply length_map. Qed.

Lemma py_spec_speeds_length (ms : list measurement) :
  length (spec_speeds ms) = length (spec_valid_pairs ms).
Proof. apply length_map. Qed.

(** ** [calculate_scores], line by line *)

Section Scores.
Variable lib : library.

Lemma py_calculate_scores_degenerate (ms : list measurement) :
  (length (spec_valid_pairs ms) < 2)%nat ->
  calculate_scores lib ms =
    match float lib "inf" with
    | Some infinite => Ok (0%float, 0%float, infinite)
    | None => Raise ValueError
    end.
Proof.
  intros Hn. unfold calculate_scores. rewrite py_filter_valid_length.
  destruct (Nat.ltb_spec (length (spec_valid_pairs ms)) 2); [reflexivity | lia].
Qed.

Lemma py_calculate_scores_unfold (ms : list measurement) :
  (2 <= length (spec_valid_pairs ms))%nat ->
  calculate_scores lib ms =
    bind (stdev lib (spec_pings ms)) (fun ping_stdev =>
    bind (div 1 (ping_stdev + 1)) (fun ping_stability =>
    bind (stdev lib (spec_speeds ms)) (fun speed_stdev =>
    bind (mean lib (spec_speeds ms)) (fun speed_mean =>
    bind (div speed_stdev speed_mean) (fun variation =>
    bind (div 1 (variation + 1)) (fun speed_stability =>
    bind (div (ping_stability + speed_stability) 2) (fun stability_score =>
    bind (mean lib (spec_speeds ms)) (fun avg_speed =>
    bind (mean lib (spec_pings ms)) (fun avg_ping =>
    Ok (stability_score, avg_speed, avg_ping)))))))))).
Proof.
  intros Hn. unfold calculate_scores. rewrite py_filter_valid_length.
  destruct (Nat.ltb_spec (length (spec_valid_pairs ms)) 2); [lia |].
  now rewrite py_unzip_valid.
Qed.

(** When the scores are returned. *)
Lemma py_calculate_scores_returns (ms : list measurement)
    (stability speed ping : PrimFloat.float) :
  (2 <= length (spec_valid_pairs ms))%nat ->
  (calculate_scores lib ms = Ok (stability, speed, ping) <->
   exists ping_stdev speed_stdev,
     stdev lib (spec_pings ms) = Ok ping_stdev /\
     stdev lib (spec_speeds ms) = Ok speed_stdev /\
     mean lib (spec_speeds ms) = Ok speed /\
     mean lib (spec_pings ms) = Ok ping /\
     (ping_stdev + 1 =? 0)%float = false /\
     (speed =? 0)%float = false /\
     (speed_stdev / speed + 1 =? 0)%float = false /\
     stability = spec_stability ping_stdev speed_stdev speed).
Proof.
  intros Hn. rewrite py_calculate_scores_unfold by assumption. split.
  - destruct (stdev lib (spec_pings ms)) as [ping_stdev |]; [| discriminate].
    cbn [bind].
    destruct (py_div_cases 1 (ping_stdev + 1)) as [[Hp ->] | [_ ->]];
      [| discriminate].
    cbn [bind].
    destruct (stdev lib (spec_speeds ms)) as [speed_stdev |]; [| discriminate].
    cbn [bind].
    destruct (mean lib (spec_speeds ms)) as [speed_mean |]; [| discriminate].
    cbn [bind].
    destruct (py_div_cases speed_stdev speed_mean) as [[Hm ->] | [_ ->]];
      [| discriminate].
    cbn [bind].
    destruct (py_div_cases 1 (speed_stdev / speed_mean + 1)) as [[Hv ->] | [_ ->]];
      [| discriminate].
    cbn [bind div]. change (2 =? 0)%float with false. cbn [bind].
    destruct (mean lib (spec_pings ms)) as [avg_ping |]; [| discriminate].
    cbn [bind]. intros [= <- <- <-].
    exists ping_stdev, speed_stdev. repeat split; assumption.
  - intros (ping_stdev & speed_stdev & -> & -> & -> & -> & Hp & Hm & Hv & ->).
    cbn [bind]. rewrite (py_div_ok _ _ Hp). cbn [bind].
    rewrite (py_div_ok _ _ Hm). cbn [bind].
    rewrite (py_div_ok _ _ Hv). reflexivity.
Qed.

(** [weigh] never raises: its divisors are the constants 1, 100, 1000
    and 8. *)
Lemma py_weigh_returns (stability speed ping : PrimFloat.float) :
  weigh stability speed ping = Ok (spec_weighted stability speed ping).
Proof.
  unfold weigh, spec_weighted, div.
  change (1 =? 0)%float with false. change (100 =? 0)%float with false.
  change (1000 =? 0)%float with false. change (8 =? 0)%float with false.
  cbn [bind]. now rewrite py_div_one.
Qed.


Lemma py_rank_server_raises (item : string * server_dataset) (e : exception) :
  calculate_scores lib (all_measurements (snd item)) = Raise e ->
  rank_server lib item = Raise e.
Proof. unfold rank_server. now intros ->. Qed.

End Scores.

(** ** Doubles that are equal *)

Lemma py_eqb_SFeqb (x y : PrimFloat.float) :
  (x =? y)%float = SFeqb (Prim2SF x) (Prim2SF y).
Proof. apply FloatAxioms.eqb_spec. Qed.

(** Doubles that compare equal have the same exact value, if any: they
    are the same double, or the two zeros. *)
Lemma py_eqb_as_integer_ratio (x y : PrimFloat.float) :
  (x =? y)%float = true -> as_integer_ratio x = as_integer_ratio y.
Proof.
  rewrite py_eqb_SFeqb. unfold as_integer_ratio, SFeqb, SFcompare.
  destruct (Prim2SF x) as [sx | sx | | sx mx ex],
           (Prim2SF y) as [sy | sy | | sy my ey];
    try discriminate; try reflexivity;
    try (destruct sx; discriminate); try (destruct sy; discriminate).
  change (PosDef.Pos.compare_cont Eq mx my) with (Pos.compare mx my).
  destruct sx, sy; try discriminate;
    destruct (Z.compare_spec ex ey) as [-> | |]; try discriminate;
    destruct (Pos.compare_spec mx my) as [-> | |];
    try discriminate; reflexivity.
Qed.

Lemma py_is_finite_ratio (x : PrimFloat.float) :
  is_finite x = true -> exists q, as_integer_ratio x = Some q.
Proof.
  unfold is_finite, as_integer_ratio.
  destruct (Prim2SF x); try discriminate; intros _; eexists; reflexivity.
Qed.

(** ** The statistics of constant data *)

Lemma py_exact_ratios_constant (q : Q) (p : PrimFloat.float)
    (data : list PrimFloat.float) :
  as_integer_ratio p = Some q ->
  Forall (fun x => (x =? p)%float = true) data ->
  exact_ratios data = Some (repeat q (length data)).
Proof.
  intros Hp. induction 1 as [| x data Hx _ IH]; [reflexivity |].
  cbn [exact_ratios length repeat].
  now rewrite (py_eqb_as_integer_ratio x p Hx), Hp, IH.
Qed.

Lemma py_fraction_sum_repeat (q : Q) (n : nat) :
  (fraction_sum (repeat q n) == inject_Z (Z.of_nat n) * q)%Q.
Proof.
  induction n as [| n IH].
  - cbn. ring.
  - cbn [repeat fraction_sum fold_right]. fold (fraction_sum (repeat q n)).
    rewrite IH, Nat2Z.inj_succ. unfold Z.succ. rewrite inject_Z_plus. ring.
Qed.

Lemma py_float_of_fraction_zero (q : Q) :
  (q == 0)%Q -> float_of_fraction q = Ok 0%float.
Proof.
  intros Hq. unfold float_of_fraction.
  rewrite (Qred_complete q 0 Hq). reflexivity.
Qed.

Lemma py_float_sqrt_of_frac_zero (q : Q) :
  (q == 0)%Q ->
  float_sqrt_of_frac (Qnum (Qred q)) (Zpos (Qden (Qred q))) = Ok 0%float.
Proof.
  intros Hq. rewrite (Qred_complete q 0 Hq). reflexivity.
Qed.

Lemma py_inject_Z_nonzero (n : Z) : (0 < n)%Z -> ~ (inject_Z n == 0)%Q.
Proof.
  intros Hn Heq. unfold Qeq, inject_Z in Heq. cbn in Heq. lia.
Qed.

(** The standard deviation of at least two data that all equal one
    finite double is 0. *)
Lemma py_statistics_stdev_constant (p : PrimFloat.float)
    (data : list PrimFloat.float) :
  (2 <= length data)%nat ->
  is_finite p = true ->
  Forall (fun x => (x =? p)%float = true) data ->
  statistics_stdev data = Ok 0%float.
Proof.
  intros Hn Hfin Hall.
  destruct (py_is_finite_ratio p Hfin) as [q Hq].
  unfold statistics_stdev.
  destruct (Z.ltb_spec (Z.of_nat (length data)) 2); [lia |].
  rewrite (py_exact_ratios_constant q p data Hq Hall).
  apply py_float_sqrt_of_frac_zero.
  rewrite map_repeat, !py_fraction_sum_repeat.
  set (n := Z.of_nat (length data)) in *.
  assert (Hn0 : ~ (inject_Z n == 0)%Q) by (apply py_inject_Z_nonzero; lia).
  assert (Hn1 : ~ (inject_Z (n - 1) == 0)%Q) by (apply py_inject_Z_nonzero; lia).
  field. split; assumption.
Qed.

(** The mean of data that all equal zero is 0. *)
Lemma py_statistics_mean_zeros (data : list PrimFloat.float) :
  data <> [] ->
  Forall (fun x => (x =? 0)%float = true) data ->
  statistics_mean data = Ok 0%float.
Proof.
  intros Hne Hall. unfold statistics_mean.
  destruct data as [| x data]; [now elim Hne |].
  rewrite (py_exact_ratios_constant 0%Q 0%float (x :: data) eq_refl Hall).
  apply py_float_of_fraction_zero.
  rewrite py_fraction_sum_repeat.
  assert (Hn0 : ~ (inject_Z (Z.of_nat (length (x :: data))) == 0)%Q)
    by (apply py_inject_Z_nonzero; cbn [length]; lia).
  field. assumption.
Qed.

(** ** [parse_value] *)

Section Ingestion.
Variable lib : library.

Lemma py_parse_value_explicit_error (value : string) :
  spec_explicit_error value = true -> parse_value lib value = None.
Proof. unfold parse_value, spec_explicit_error. now intros ->. Qed.

Lemma py_parse_value_other (value : string) :
  spec_explicit_error value = false ->
  parse_value lib value = float lib value.
Proof. unfold parse_value, spec_explicit_error. now intros ->. Qed.

(** In a library where no explicit error parses, [parse_value] is
    [float] with [None] for [ValueError]. *)
Lemma py_parse_value_float (value : string) :
  error_is_no_number lib -> parse_value lib value = float lib value.
Proof.
  intros Herr. destruct (spec_explicit_error value) eqn:He.
  - now rewrite py_parse_value_explicit_error, Herr.
  - now apply py_parse_value_other.
Qed.

Lemma py_parse_value_some (value : string) (v : PrimFloat.float) :
  parse_value lib value = Some v ->
  spec_explicit_error value = false /\ float lib value = Some v.
Proof.
  destruct (spec_explicit_error value) eqn:He.
  - now rewrite py_parse_value_explicit_error.
  - rewrite py_parse_value_other by assumption. now split.
Qed.

Lemma py_valid_number_cases (value : string) :
  spec_valid_number lib value \/ float lib value = None.
Proof.
  unfold spec_valid_number.
  destruct (float lib value); [left; now eexists | now right].
Qed.

Lemma py_not_valid_number (value : string) :
  ~ spec_valid_number lib value <-> float lib value = None.
Proof.
  split.
  - intros Hn. destruct (py_valid_number_cases value); [contradiction | assumption].
  - intros Hr [v Hv]. congruence.
Qed.

(** ** The nested dictionaries *)

Lemma py_record_measurement_count (f : measurement -> bool)
    (server filename : string) (m : measurement) (data : corpus) :
  count_in_corpus f (record_measurement server filename m data)
  = (count_in_corpus f data + (if f m then 1 else 0))%nat.
Proof.
  unfold count_in_corpus, record_measurement.
  apply (setdefault_update_size server [] _ (count_in_files f)).
  - reflexivity.
  - intros files. unfold count_in_files.
    apply (setdefault_update_size filename [] _ (fun ms => length (filter f ms))).
    + reflexivity.
    + intros ms. rewrite filter_app, length_app. cbn [filter].
      destruct (f m); reflexivity.
Qed.

Lemma py_valid_count_record (server filename : string) (m : measurement)
    (data : corpus) :
  spec_valid_count (record_measurement server filename m data)
  = (spec_valid_count data + (if not_error m then 1 else 0))%nat.
Proof. apply py_record_measurement_count. Qed.

Lemma py_error_count_record (server filename : string) (m : measurement)
    (data : corpus) :
  spec_error_count (record_measurement server filename m data)
  = (spec_error_count data + (if is_error m then 1 else 0))%nat.
Proof. apply py_record_measurement_count. Qed.

Lemma py_record_measurement_all (Q : string -> string -> measurement -> Prop)
    (server filename : string) (m : measurement) (data : corpus) :
  corpus_all Q data -> Q server filename m ->
  corpus_all Q (record_measurement server filename m data).
Proof.
  intros Hall Hm server' files' filename' ms' m' Hs Hf Hin.
  unfold record_measurement in Hs.
  apply setdefault_update_in in Hs.
  destruct Hs as [Hold | (-> & [-> | (files0 & Hfiles0 & ->)])].
  - eapply Hall; eassumption.
  - apply setdefault_update_in in Hf.
    destruct Hf as [[] | (-> & [-> | (ms0 & [] & _)])].
    destruct Hin as [<- | []]. assumption.
  - apply setdefault_update_in in Hf.
    destruct Hf as [Hold | (-> & [-> | (ms0 & Hms0 & ->)])].
    + eapply Hall; eassumption.
    + destruct Hin as [<- | []]. assumption.
    + apply in_app_or in Hin. destruct Hin as [Hin | [<- | []]].
      * eapply Hall; eassumption.
      * assumption.
Qed.

(** ** One row *)

Lemma py_process_row_cases (filename server ping speed : string)
    (data : corpus) :
  process_row lib filename [server; ping; speed] data =
    match parse_value lib ping, parse_value lib speed with
    | Some p, Some s => record_measurement server filename (Valid p s) data
    | None, None => record_measurement server filename ErrorMarker data
    | _, _ => data
    end.
Proof. reflexivity. Qed.

(** ** Where the measurements of the corpus come from *)

Section Provenance.
Variable dir : directory.
Variable names : list string.

Lemma py_corpus_all_empty (Q : string -> string -> measurement -> Prop) :
  corpus_all Q [].
Proof. intros server files filename ms m []. Qed.

Lemma py_process_row_from_row (filename : string) (r : row) (data : corpus) :
  In filename names -> endswith filename ".csv" = true ->
  In r (tl (rows (content dir filename))) ->
  corpus_all (from_row lib dir names) data ->
  corpus_all (from_row lib dir names) (process_row lib filename r data).
Proof.
  intros Hfile Hcsv Hrow Hall.
  destruct r as [| server [| ping [| speed [| extra r]]]]; try assumption.
  rewrite py_process_row_cases.
  destruct (parse_value lib ping) as [p |] eqn:Hp,
           (parse_value lib speed) as [s |] eqn:Hs;
    try assumption.
  - apply py_record_measurement_all; [assumption |].
    apply py_parse_value_some in Hp, Hs.
    exists ping, speed. repeat split; try assumption; tauto.
  - now apply py_record_measurement_all.
Qed.

Lemma py_process_rows_from_row (filename : string) (body : list row) :
  In filename names -> endswith filename ".csv" = true ->
  (forall r, In r body -> In r (tl (rows (content dir filename)))) ->
  forall data,
    corpus_all (from_row lib dir names) data ->
    corpus_all (from_row lib dir names) (process_rows lib filename body data).
Proof.
  intros Hfile Hcsv. unfold process_rows.
  induction body as [| r body IH]; intros Hbody data Hall; cbn [fold_left].
  - assumption.
  - apply IH.
    + intros r' Hr'. apply Hbody. now right.
    + apply py_process_row_from_row; try assumption. apply Hbody. now left.
Qed.

Lemma py_read_file_returns (filename : string) (f : file) (data data' : corpus) :
  read_file lib filename f data = Ok data' ->
  failure f = None /\ rows f <> [] /\
  data' = process_rows lib filename (tl (rows f)) data.
Proof.
  unfold read_file. destruct (rows f) as [| header body].
  - destruct (failure f); discriminate.
  - destruct (failure f); [discriminate |].
    intros [= <-]. repeat split. discriminate.
Qed.

Lemma py_read_files_from_row (files : list string) :
  (forall name, In name files -> In name names) ->
  forall data file_names data' file_names',
    corpus_all (from_row lib dir names) data ->
    read_files lib dir files data file_names = Ok (data', file_names') ->
    corpus_all (from_row lib dir names) data'.
Proof.
  induction files as [| filename files IH];
    intros Hfiles data file_names data' file_names' Hall; cbn [read_files].
  - now intros [= <- _].
  - assert (Hrest : forall name, In name files -> In name names)
      by (intros name Hin; apply Hfiles; now right).
    destruct (endswith filename ".csv") eqn:Hcsv; [| now apply IH].
    destruct (read_file lib filename (content dir filename) data)
      as [data1 |] eqn:Hfile; [| discriminate].
    cbn [bind]. apply IH; [assumption |].
    apply py_read_file_returns in Hfile. destruct Hfile as (_ & _ & ->).
    apply py_process_rows_from_row; try assumption.
    + apply Hfiles. now left.
    + now intros r Hr.
Qed.
End Provenance.

Lemma py_read_csv_files_from_row (dir : directory) (names : list string)
    (data : corpus) (file_names : list string) :
  listdir dir = Ok names ->
  read_csv_files lib dir = Ok (data, file_names) ->
  corpus_all (from_row lib dir names) data.
Proof.
  unfold read_csv_files. intros -> Hread. cbn [bind] in Hread.
  eapply (py_read_files_from_row dir names);
    [| apply py_corpus_all_empty | exact Hread].
  intros name Hin.
  eapply Permutation_in;
    [apply Permutation_sym, (sorted_perm String.ltb (fun name => name)) | exact Hin].
Qed.

End Ingestion.

(** ** What CPython's [float] refuses *)

(** Neither the empty string nor a spelling of "error" is a number for
    CPython's [float]. *)
Lemma py_cpython_error_is_no_number : error_is_no_number cpython.
Proof.
  intros field. unfold spec_explicit_error. intros H.
  apply orb_prop in H. destruct H as [H | H].
  - apply String.eqb_eq in H. now subst.
  - apply String.eqb_eq in H.
    destruct field as [| c1 [| c2 [| c3 [| c4 [| c5 [| c6 v]]]]]];
      cbn [upper] in H; try discriminate H.
    injection H as H1 H2 H3 H4 H5.
    destruct (upper_char_E c1 H1), (upper_char_R c2 H2), (upper_char_R c3 H3),
      (upper_char_O c4 H4), (upper_char_R c5 H5); subst; reflexivity.
Qed.

(** ** The order of the doubles *)







(** ** Sorting keys that are numbers *)

Section SortedNumbers.
Context {A : Type}.
Variable key : A -> PrimFloat.float.

Let not_after (x y : A) : Prop := (key y <? key x)%float = false.



End SortedNumbers.

(** ** [rank_nodes] *)

Section Ranking.
Variable lib : library.


Lemma py_rank_loop_spec (items : corpus) :
  forall acc out,
    rank_loop lib items acc = Ok out ->
    exists rs,
      Forall2 (fun item r => rank_server lib item = Ok r) items rs /\
      out = acc ++ rs.
Proof.
  induction items as [| item items IH]; intros acc out; cbn [rank_loop].
  - intros [= <-]. exists []. split; [constructor | now rewrite app_nil_r].
  - destruct (rank_server lib item) as [r |] eqn:Hr; [| discriminate].
    cbn [bind]. intros Hloop.
    destruct (IH _ _ Hloop) as (rs & Hrs & ->).
    exists (r :: rs). split; [now constructor |].
    now rewrite <- app_assoc.
Qed.

Lemma py_rank_nodes_spec (data : corpus) (out : list ranking) :
  rank_nodes lib data = Ok out ->
  exists rankings,
    Forall2 (fun item r => rank_server lib item = Ok r) data rankings /\
    out = sorted_reverse PrimFloat.ltb weighted_score rankings.
Proof.
  unfold rank_nodes.
  destruct (rank_loop lib data []) as [rankings |] eqn:Hloop; [| discriminate].
  cbn [bind]. intros [= <-].
  destruct (py_rank_loop_spec _ _ _ Hloop) as (rs & Hrs & ->).
  now exists rs.
Qed.


End Ranking.

(** * The claims on doubles *)




(** C3 (amended).  Some input makes the scoring fault.  Whenever a
    sample list has at least two valid pairs and every speed equals 0,
    the speed deviation and the speed mean are both 0 and
    [calculate_scores] raises: the exception of [statistics.stdev] on the
    pings if that call raises, and otherwise the [ZeroDivisionError] of
    dividing the speed deviation by the speed mean, which nothing
    catches. *)
Theorem C3_zero_speeds_raise :
  (exists ms, calculate_scores cpython ms = Raise ZeroDivisionError) /\
  (forall ms,
     (2 <= length (spec_valid_pairs ms))%nat ->
     Forall (fun s => (s =? 0)%float = true) (spec_speeds ms) ->
     stdev cpython (spec_speeds ms) = Ok 0%float /\
     mean cpython (spec_speeds ms) = Ok 0%float /\
     div 0 0 = Raise ZeroDivisionError /\
     (forall e,
        stdev cpython (spec_pings ms) = Raise e ->
        calculate_scores cpython ms = Raise e) /\
     (forall ping_stdev,
        stdev cpython (spec_pings ms) = Ok ping_stdev ->
        calculate_scores cpython ms = Raise ZeroDivisionError)).
Proof.
  assert (Hall : forall ms,
     (2 <= length (spec_valid_pairs ms))%nat ->
     Forall (fun s => (s =? 0)%float = true) (spec_speeds ms) ->
     stdev cpython (spec_speeds ms) = Ok 0%float /\
     mean cpython (spec_speeds ms) = Ok 0%float /\
     div 0 0 = Raise ZeroDivisionError /\
     (forall e,
        stdev cpython (spec_pings ms) = Raise e ->
        calculate_scores cpython ms = Raise e) /\
     (forall ping_stdev,
        stdev cpython (spec_pings ms) = Ok ping_stdev ->
        calculate_scores cpython ms = Raise ZeroDivisionError)).
  { intros ms Hn Hzero.
    assert (Hlen : (2 <= length (spec_speeds ms))%nat)
      by now rewrite py_spec_speeds_length.
    assert (Hsd : stdev cpython (spec_speeds ms) = Ok 0%float)
      by now apply (py_statistics_stdev_constant 0%float).
    assert (Hmu : mean cpython (spec_speeds ms) = Ok 0%float).
    { apply py_statistics_mean_zeros; [| assumption].
      destruct (spec_speeds ms); [simpl in Hlen; lia | discriminate]. }
    split; [exact Hsd |]. split; [exact Hmu |]. split; [reflexivity |].
    split.
    - intros e He. rewrite py_calculate_scores_unfold by assumption.
      now rewrite He.
    - intros ping_stdev Hp. rewrite py_calculate_scores_unfold by assumption.
      rewrite Hp. cbn [bind].
      destruct (py_div_cases 1 (ping_stdev + 1)) as [[_ ->] | [_ ->]];
        [| reflexivity].
      cbn [bind]. rewrite Hsd, Hmu. reflexivity. }
  split; [| exact Hall].
  exists [Valid 10 0; Valid 20 0].
  destruct (Hall [Valid 10 0; Valid 20 0]) as (_ & _ & _ & _ & Hraise).
  - simpl. lia.
  - repeat constructor.
  - apply (Hraise 0x1.c48c6001f0ac0p+2%float). vm_compute. reflexivity.
Qed.

Lemma C3_witness_two_zero_speeds :
  calculate_scores cpython [Valid 10 0; ErrorMarker; Valid 20 (-0)]
  = Raise ZeroDivisionError.
Proof.
  destruct (proj2 C3_zero_speeds_raise [Valid 10 0; ErrorMarker; Valid 20 (-0)])
    as (_ & _ & _ & _ & Hraise).
  - simpl. lia.
  - repeat constructor.
  - apply (Hraise 0x1.c48c6001f0ac0p+2%float). vm_compute. reflexivity.
Defined.

(** C3, as stated, fails where line 45 raises before the division of
    line 46 is reached: with the pings -1.7e308 and 1.7e308 and the
    speeds 0 and 0 the exception is the [OverflowError] of
    [statistics.stdev], and with a ping [inf] it is its
    [AttributeError]. *)
Lemma C3_counterexample_overflow :
  let far := 0x1.e42d130773b76p+1023%float in
  let ms := [Valid (- far) 0; Valid far 0] in
  let ms' := [Valid PrimFloat.infinity 0; Valid 1 0] in
  (2 <= length (spec_valid_pairs ms))%nat /\
  Forall (fun s => (s =? 0)%float = true) (spec_speeds ms) /\
  float cpython "1.7e308" = Some far /\
  calculate_scores cpython ms = Raise OverflowError /\
  (2 <= length (spec_valid_pairs ms'))%nat /\
  Forall (fun s => (s =? 0)%float = true) (spec_speeds ms') /\
  float cpython "inf" = Some PrimFloat.infinity /\
  calculate_scores cpython ms' = Raise AttributeError.
Proof.
  intros far ms ms'.
  split; [simpl; lia |]. split; [repeat constructor |].
  split; [vm_compute; reflexivity |]. split; [vm_compute; reflexivity |].
  split; [simpl; lia |]. split; [repeat constructor |].
  split; vm_compute; reflexivity.
Qed.

(** C8.  With at least two valid pairs whose pings all equal one finite
    value, the ping standard deviation is 0, the ping stability
    [1 / (0 + 1)] is exactly 1, and [calculate_scores] returns exactly
    when the speed part of the computation does, with the stability score
    [(1 + speed_stability) / 2]. *)
Theorem C8_identical_pings (ms : list measurement) (p : PrimFloat.float) :
  (2 <= length (spec_valid_pairs ms))%nat ->
  is_finite p = true ->
  Forall (fun x => (x =? p)%float = true) (spec_pings ms) ->
  stdev cpython (spec_pings ms) = Ok 0%float /\
  div 1 (0 + 1) = Ok 1%float /\
  forall stability speed ping,
    calculate_scores cpython ms = Ok (stability, speed, ping) <->
    exists speed_stdev,
      stdev cpython (spec_speeds ms) = Ok speed_stdev /\
      mean cpython (spec_speeds ms) = Ok speed /\
      mean cpython (spec_pings ms) = Ok ping /\
      (speed =? 0)%float = false /\
      (speed_stdev / speed + 1 =? 0)%float = false /\
      stability = ((1 + 1 / (speed_stdev / speed + 1)) / 2)%float.
Proof.
  intros Hn Hfin Hall.
  assert (Hsd : stdev cpython (spec_pings ms) = Ok 0%float).
  { apply (py_statistics_stdev_constant p); try assumption.
    now rewrite py_spec_pings_length. }
  split; [exact Hsd |]. split; [reflexivity |].
  intros stability speed ping.
  rewrite (py_calculate_scores_returns cpython ms stability speed ping Hn).
  split.
  - intros (ping_stdev & speed_stdev & Hp & Hs & Hmu & Hpg & _ & Hz & Hv & ->).
    rewrite Hsd in Hp. injection Hp as <-.
    exists speed_stdev. repeat split; assumption.
  - intros (speed_stdev & Hs & Hmu & Hpg & Hz & Hv & ->).
    exists 0%float, speed_stdev. repeat split; assumption.
Qed.

Lemma C8_witness_constant_ping :
  calculate_scores cpython
    [Valid 42 10; ErrorMarker; Valid 42 30; Valid 42 20]
  = Ok (((1 + 1 / (10 / 20 + 1)) / 2)%float, 20%float, 42%float).
Proof.
  apply (C8_identical_pings
           [Valid 42 10; ErrorMarker; Valid 42 30; Valid 42 20] 42%float).
  - simpl. lia.
  - reflexivity.
  - repeat constructor.
  - exists 10%float. repeat split; vm_compute; reflexivity.
Defined.

(** C2 (amended).  In a library where, as in Python, no explicit-error
    field parses as a number, a data row of exactly three fields is
    recorded as a valid Sample exactly when both the ping and the speed
    field parse as floating-point numbers, as an error marker exactly
    when neither of them does (explicit-error fields and other
    unparseable text alike), and is dropped, the corpus unchanged,
    exactly when just one of the two parses. *)
Theorem C2_row_classification (lib : library)
    (filename server ping speed : string) (data : corpus) :
  error_is_no_number lib ->
  let data' := process_row lib filename [server; ping; speed] data in
  (forall p s,
     float lib ping = Some p -> float lib speed = Some s ->
     data' = record_measurement server filename (Valid p s) data) /\
  (~ spec_valid_number lib ping -> ~ spec_valid_number lib speed ->
   data' = record_measurement server filename ErrorMarker data) /\
  (spec_valid_count data' = S (spec_valid_count data) <->
   spec_valid_number lib ping /\ spec_valid_number lib speed) /\
  (spec_error_count data' = S (spec_error_count data) <->
   ~ spec_valid_number lib ping /\ ~ spec_valid_number lib speed) /\
  (data' = data <->
   (spec_valid_number lib ping /\ ~ spec_valid_number lib speed) \/
   (~ spec_valid_number lib ping /\ spec_valid_number lib speed)).
Proof.
  intros Herr data'. subst data'. rewrite py_process_row_cases.
  rewrite !(py_parse_value_float lib _ Herr).
  destruct (float lib ping) as [p |] eqn:Hp, (float lib speed) as [s |] eqn:Hs.
  - assert (Hvp : spec_valid_number lib ping) by (exists p; assumption).
    assert (Hvs : spec_valid_number lib speed) by (exists s; assumption).
    rewrite py_valid_count_record, py_error_count_record. cbn.
    split; [now intros p' s' [= <-] [= <-] |].
    repeat split; try tauto; try lia.
    intros Heq. apply (f_equal spec_valid_count) in Heq.
    rewrite py_valid_count_record in Heq. cbn in Heq. lia.
  - assert (Hvp : spec_valid_number lib ping) by (exists p; assumption).
    assert (Hns : ~ spec_valid_number lib speed) by now apply py_not_valid_number.
    split; [discriminate |].
    repeat split; try tauto; try lia.
  - assert (Hnp : ~ spec_valid_number lib ping) by now apply py_not_valid_number.
    assert (Hvs : spec_valid_number lib speed) by (exists s; assumption).
    split; [discriminate |].
    repeat split; try tauto; try lia.
  - assert (Hnp : ~ spec_valid_number lib ping) by now apply py_not_valid_number.
    assert (Hns : ~ spec_valid_number lib speed) by now apply py_not_valid_number.
    rewrite py_valid_count_record, py_error_count_record. cbn.
    split; [discriminate |].
    repeat split; try tauto; try lia.
    intros Heq. apply (f_equal spec_error_count) in Heq.
    rewrite py_error_count_record in Heq. cbn in Heq. lia.
Qed.

(** C2, as stated, fails on a row whose two fields are unparseable text
    that is neither empty nor "ERROR": it is kept as an error marker. *)
Lemma C2_counterexample_unparseable_pair :
  spec_explicit_error "abc" = false /\
  spec_explicit_error "xyz" = false /\
  float cpython "abc" = None /\
  float cpython "xyz" = None /\
  process_row cpython "a.csv" ["srv"; "abc"; "xyz"]%string []
  = [("srv"%string, [("a.csv"%string, [ErrorMarker])])].
Proof.
  repeat split; vm_compute; reflexivity.
Qed.

(** The row [srv,12.5,nan] is a valid Sample: "nan" parses. *)
Lemma C2_witness_valid_row :
  process_row cpython "a.csv" ["srv"; "12.5"; "nan"]%string []
  = record_measurement "srv" "a.csv" (Valid 12.5 PrimFloat.nan) [].
Proof.
  apply (C2_row_classification cpython "a.csv" "srv" "12.5" "nan" []
           py_cpython_error_is_no_number).
  - vm_compute. reflexivity.
  - vm_compute. reflexivity.
Defined.

(** C7.  In a library where, as in Python, no explicit-error field
    parses as a number, a three-field row in which exactly one of the
    ping and speed fields parses as a number leaves the corpus as it
    was: neither the count of valid samples nor the count of error
    markers changes, and the file is read as if the row were not
    there. *)
Theorem C7_half_parsed_row_is_dropped (lib : library)
    (filename server ping speed : string) (data : corpus) :
  error_is_no_number lib ->
  (spec_valid_number lib ping /\ ~ spec_valid_number lib speed) \/
  (~ spec_valid_number lib ping /\ spec_valid_number lib speed) ->
  let data' := process_row lib filename [server; ping; speed] data in
  data' = data /\
  spec_valid_count data' = spec_valid_count data /\
  spec_error_count data' = spec_error_count data /\
  forall before after start,
    process_rows lib filename (before ++ [server; ping; speed] :: after) start
    = process_rows lib filename (before ++ after) start.
Proof.
  intros Herr Hhalf data'.
  assert (Hdrop : forall d, process_row lib filename [server; ping; speed] d = d).
  { intros d. rewrite py_process_row_cases.
    rewrite !(py_parse_value_float lib _ Herr).
    destruct Hhalf as [[[p Hp] Hs] | [Hp [s Hs]]].
    - apply py_not_valid_number in Hs. now rewrite Hp, Hs.
    - apply py_not_valid_number in Hp. now rewrite Hp, Hs. }
  subst data'. rewrite Hdrop. repeat split.
  intros before after start. unfold process_rows.
  rewrite !fold_left_app. cbn [fold_left]. now rewrite Hdrop.
Qed.

Lemma C7_witness_ping_and_error :
  let data : corpus := [("srv"%string, [("a.csv"%string, [Valid 1 2])])] in
  process_row cpython "a.csv" ["srv"; "12.5"; "ERROR"]%string data = data /\
  process_row cpython "a.csv" ["srv"; "abc"; "inf"]%string data = data.
Proof.
  intros data. split.
  - apply (C7_half_parsed_row_is_dropped cpython "a.csv" "srv" "12.5" "ERROR"
             data py_cpython_error_is_no_number).
    left. split.
    + eexists. vm_compute. reflexivity.
    + apply py_not_valid_number. vm_compute. reflexivity.
  - apply (C7_half_parsed_row_is_dropped cpython "a.csv" "srv" "abc" "inf"
             data py_cpython_error_is_no_number).
    right. split.
    + apply py_not_valid_number. vm_compute. reflexivity.
    + eexists. vm_compute. reflexivity.
Defined.

(** C9 (amended).  Every valid Sample that ingestion stores in the
    Corpus holds the two doubles that [float] gives for the ping and the
    speed field of a three-field data row of that server, after the
    header of that [.csv] file of the directory, neither field being
    empty or a spelling of "ERROR".  No sign is checked: a field such as
    "-5" is stored as the negative number it reads. *)
Theorem C9_valid_samples_are_row_readings (lib : library)
    (dir : directory) (names : list string) (data : corpus)
    (file_names : list string) :
  listdir dir = Ok names ->
  read_csv_files lib dir = Ok (data, file_names) ->
  forall server files filename ms p s,
    In (server, files) data ->
    In (filename, ms) files ->
    In (Valid p s) ms ->
    exists ping speed,
      In filename names /\
      endswith filename ".csv" = true /\
      In [server; ping; speed] (tl (rows (content dir filename))) /\
      spec_explicit_error ping = false /\
      spec_explicit_error speed = false /\
      float lib ping = Some p /\ float lib speed = Some s.
Proof.
  intros Hlist Hread server files filename ms p s Hserver Hfile Hm.
  exact (py_read_csv_files_from_row lib dir names data file_names Hlist Hread
           server files filename ms (Valid p s) Hserver Hfile Hm).
Qed.

(** The file [a.csv] with a header and the row [srv,-5,10]. *)
Lemma py_read_csv_files_negative_row :
  read_csv_files cpython directory_negative_row
  = Ok ([("srv"%string, [("a.csv"%string, [Valid (-5) 10])])],
        ["a.csv"%string]).
Proof. vm_compute. reflexivity. Qed.

(** C9, as stated, fails on a row with a negative reading: the file
    [a.csv] with a header and the row [srv,-5,10] puts the valid Sample
    (-5, 10) in the Corpus, and -5 is below 0. *)
Lemma C9_counterexample_negative_ping :
  read_csv_files cpython directory_negative_row
  = Ok ([("srv"%string, [("a.csv"%string, [Valid (-5) 10])])],
        ["a.csv"%string]) /\
  (0 <=? -5)%float = false.
Proof.
  split; [exact py_read_csv_files_negative_row | reflexivity].
Qed.

Lemma C9_witness_one_file :
  exists ping speed,
    In "a.csv"%string ["a.csv"%string] /\
    endswith "a.csv" ".csv" = true /\
    In ["srv"%string; ping; speed]
       (tl (rows (content directory_negative_row "a.csv"))) /\
    spec_explicit_error ping = false /\
    spec_explicit_error speed = false /\
    float cpython ping = Some (-5)%float /\ float cpython speed = Some 10%float.
Proof.
  apply (C9_valid_samples_are_row_readings cpython directory_negative_row
           ["a.csv"%string]
           [("srv"%string, [("a.csv"%string, [Valid (-5) 10])])]
           ["a.csv"%string]
           eq_refl
           py_read_csv_files_negative_row
           "srv"%string [("a.csv"%string, [Valid (-5) 10])]
           "a.csv"%string [Valid (-5) 10] (-5)%float 10%float).
  - now left.
  - now left.
  - now left.
Defined.




(** * Further properties on doubles *)

(** ** [read_csv_files]: which exception, which file names *)

Section Reading.
Variable lib : library.
Variable dir : directory.

Lemma py_read_file_outcome (filename : string) (f : file) (data : corpus) :
  read_file lib filename f data =
    match file_exception f with
    | Some e => Raise e
    | None => Ok (process_rows lib filename (tl (rows f)) data)
    end.
Proof.
  unfold read_file, file_exception.
  destruct (rows f) as [| header body], (failure f); reflexivity.
Qed.

Lemma py_read_files_outcome (names : list string) :
  forall data file_names,
    match find (fails dir) names with
    | Some name =>
        exists e,
          file_exception (content dir name) = Some e /\
          read_files lib dir names data file_names = Raise e
    | None =>
        exists data',
          read_files lib dir names data file_names
          = Ok (data', file_names ++ filter is_csv names)
    end.
Proof.
  induction names as [| name names IH]; intros data file_names;
    cbn [find read_files filter].
  - exists data. now rewrite app_nil_r.
  - unfold fails at 1. unfold is_csv at 1 2.
    destruct (endswith name ".csv"); cbn [andb].
    + rewrite py_read_file_outcome.
      destruct (file_exception (content dir name)) as [e |] eqn:He.
      * exists e. now split.
      * cbn [bind].
        specialize (IH (process_rows lib name (tl (rows (content dir name))) data)
                       (file_names ++ [name])).
        destruct (find (fails dir) names) as [bad |].
        -- exact IH.
        -- destruct IH as [data' IH]. exists data'.
           now rewrite IH, <- app_assoc.
    + apply IH.
Qed.

End Reading.

(** X1.  [read_csv_files] raises what [os.listdir] raises.  When the
    directory is listed, it raises exactly when the reading of some file
    with a [.csv] name ends with an exception: it raises the exception of
    the first such file in ascending order of the names, which is
    [StopIteration] for a file without any row, not even a header, and
    otherwise the failure of [open], of the decoding or of the reader.
    When no such file is there it returns, and the file names are the
    listed names that end in [.csv], in ascending order. *)
Theorem X1_read_csv_files_outcome (lib : library) (dir : directory) :
  (forall e, listdir dir = Raise e -> read_csv_files lib dir = Raise e) /\
  (forall names,
     listdir dir = Ok names ->
     match find (fails dir) (sorted String.ltb (fun name => name) names) with
     | Some name =>
         exists e,
           file_exception (content dir name) = Some e /\
           read_csv_files lib dir = Raise e
     | None =>
         exists data,
           read_csv_files lib dir
           = Ok (data,
                 filter is_csv (sorted String.ltb (fun name => name) names))
     end).
Proof.
  split.
  - intros e He. unfold read_csv_files. now rewrite He.
  - intros names Hnames. unfold read_csv_files. rewrite Hnames. cbn [bind].
    exact (py_read_files_outcome lib dir
             (sorted String.ltb (fun name => name) names) [] []).
Qed.

Lemma X1_witness_empty_csv_file :
  let dir :=
    mk_directory (Ok ["b.csv"; "notes.txt"; "a.csv"]%string)
      (fun name =>
         if (name =? "a.csv")%string
         then mk_file [["server"; "ping"; "speed"]]%string None
         else mk_file [] None) in
  exists e,
    file_exception (content dir "b.csv") = Some e /\
    read_csv_files cpython dir = Raise e.
Proof.
  intros dir.
  exact (proj2 (X1_read_csv_files_outcome cpython dir)
           ["b.csv"; "notes.txt"; "a.csv"]%string eq_refl).
Defined.

(** ** [read_csv_files]: how many measurements *)

Section Counting.
Variable lib : library.
Variable dir : directory.

Lemma py_process_row_counts (filename : string) (r : row) (data : corpus) :
  spec_valid_count (process_row lib filename r data)
  = (spec_valid_count data + if both_numbers lib r then 1 else 0)%nat /\
  spec_error_count (process_row lib filename r data)
  = (spec_error_count data + if neither_number lib r then 1 else 0)%nat.
Proof.
  destruct r as [| server [| ping [| speed [| extra r]]]];
    cbn [process_row both_numbers neither_number]; try (split; lia).
  unfold parses.
  destruct (parse_value lib ping), (parse_value lib speed); cbn [andb negb];
    rewrite ?py_valid_count_record, ?py_error_count_record; cbn; split; lia.
Qed.

Lemma py_process_rows_counts (filename : string) (body : list row) :
  forall data,
    spec_valid_count (process_rows lib filename body data)
    = (spec_valid_count data + length (filter (both_numbers lib) body))%nat /\
    spec_error_count (process_rows lib filename body data)
    = (spec_error_count data + length (filter (neither_number lib) body))%nat.
Proof.
  unfold process_rows.
  induction body as [| r body IH]; intros data; cbn [fold_left filter].
  - cbn. split; lia.
  - destruct (IH (process_row lib filename r data)) as [-> ->].
    destruct (py_process_row_counts filename r data) as [-> ->].
    destruct (both_numbers lib r), (neither_number lib r); cbn [length];
      split; lia.
Qed.

Lemma py_read_files_counts (names : list string) :
  forall data file_names data' file_names',
    read_files lib dir names data file_names = Ok (data', file_names') ->
    spec_valid_count data'
    = (spec_valid_count data
       + length (filter (both_numbers lib) (data_rows dir names)))%nat /\
    spec_error_count data'
    = (spec_error_count data
       + length (filter (neither_number lib) (data_rows dir names)))%nat.
Proof.
  induction names as [| name names IH];
    intros data file_names data' file_names'; cbn [read_files].
  - intros [= <- _]. cbn. split; lia.
  - unfold data_rows. cbn [flat_map]. fold (data_rows dir names).
    unfold is_csv at 1 2.
    destruct (endswith name ".csv").
    + rewrite py_read_file_outcome.
      destruct (file_exception (content dir name)); [discriminate |].
      cbn [bind]. intros H.
      destruct (IH _ _ _ _ H) as [-> ->].
      destruct (py_process_rows_counts name (tl (rows (content dir name))) data)
        as [-> ->].
      rewrite !filter_app, !length_app. split; lia.
    + cbn [app]. apply IH.
Qed.

End Counting.

(** X4.  The corpus that [read_csv_files] returns holds one valid
    measurement for every row after the header, in a file with a [.csv]
    name, that has three fields and for which [parse_value] gives a
    number in both the ping and the speed field, one error marker for
    every such row for which it gives a number in neither, and nothing
    else. *)
Theorem X4_measurement_counts (lib : library) (dir : directory)
    (names : list string) (data : corpus) (file_names : list string) :
  listdir dir = Ok names ->
  read_csv_files lib dir = Ok (data, file_names) ->
  spec_valid_count data
  = length (filter (both_numbers lib) (data_rows dir names)) /\
  spec_error_count data
  = length (filter (neither_number lib) (data_rows dir names)).
Proof.
  unfold read_csv_files. intros -> Hread. cbn [bind] in Hread.
  destruct (py_read_files_counts lib dir _ _ _ _ _ Hread) as [-> ->]. cbn.
  assert (Hperm : Permutation
                    (data_rows dir (sorted String.ltb (fun name => name) names))
                    (data_rows dir names)).
  { unfold data_rows. apply Permutation_flat_map.
    apply Permutation_sym, (sorted_perm String.ltb (fun name => name)). }
  split; apply Permutation_length; now apply filter_perm.
Qed.

Lemma X4_witness_two_files :
  let data : corpus :=
    [("t"%string, [("a.csv"%string, [ErrorMarker])]);
     ("s"%string, [("a.csv"%string, [ErrorMarker; Valid PrimFloat.nan PrimFloat.infinity]);
                   ("b.csv"%string, [ErrorMarker])])] in
  spec_valid_count data = 1%nat /\ spec_error_count data = 3%nat.
Proof.
  intros data.
  apply (X4_measurement_counts cpython directory_two_files
           ["b.csv"; "a.csv"]%string data ["a.csv"; "b.csv"]%string eq_refl).
  vm_compute. reflexivity.
Defined.

(** ** [read_csv_files]: what is stored where *)

Section Storing.
Variable lib : library.
Variable dir : directory.

Lemma py_measurements_of_record (server0 filename0 : string) (m : measurement)
    (data : corpus) (server filename : string) :
  measurements_of (record_measurement server0 filename0 m data) server filename
  = measurements_of data server filename
    ++ (if ((server =? server0) && (filename =? filename0))%string
        then [m] else []).
Proof.
  unfold measurements_of, record_measurement.
  rewrite get_setdefault_update.
  destruct (String.eqb_spec server server0) as [-> | _]; cbn [andb].
  - rewrite get_setdefault_update.
    destruct (String.eqb_spec filename filename0) as [-> | _];
      [reflexivity | now rewrite app_nil_r].
  - now rewrite app_nil_r.
Qed.

Lemma py_measurements_of_process_row (filename0 : string) (r : row)
    (data : corpus) (server filename : string) :
  measurements_of (process_row lib filename0 r data) server filename
  = measurements_of data server filename
    ++ (if (filename =? filename0)%string then reading lib server r else []).
Proof.
  assert (Hnil : measurements_of data server filename
                 = measurements_of data server filename
                   ++ (if (filename =? filename0)%string then [] else []))
    by (destruct (filename =? filename0)%string; now rewrite app_nil_r).
  destruct r as [| name [| ping [| speed [| extra r]]]];
    cbn [process_row reading]; try exact Hnil.
  rewrite (String.eqb_sym name server).
  destruct (parse_value lib ping), (parse_value lib speed);
    rewrite ?py_measurements_of_record;
    destruct (server =? name)%string, (filename =? filename0)%string;
    cbn [andb]; now rewrite ?app_nil_r.
Qed.

Lemma py_measurements_of_process_rows (filename0 : string) (body : list row)
    (server filename : string) :
  forall data,
    measurements_of (process_rows lib filename0 body data) server filename
    = measurements_of data server filename
      ++ (if (filename =? filename0)%string
          then readings lib server body else []).
Proof.
  unfold process_rows, readings.
  induction body as [| r body IH]; intros data; cbn [fold_left flat_map].
  - destruct (filename =? filename0)%string; now rewrite app_nil_r.
  - rewrite IH, py_measurements_of_process_row, <- app_assoc.
    destruct (filename =? filename0)%string; reflexivity.
Qed.

Lemma py_measurements_of_read_files (names : list string)
    (server filename : string) :
  forall data file_names data' file_names',
    read_files lib dir names data file_names = Ok (data', file_names') ->
    measurements_of data' server filename
    = measurements_of data server filename
      ++ flat_map
           (fun name =>
              if (is_csv name && (filename =? name)%string)%bool
              then readings lib server (tl (rows (content dir name))) else [])
           names.
Proof.
  induction names as [| name names IH];
    intros data file_names data' file_names'; cbn [read_files flat_map].
  - intros [= <- _]. now rewrite app_nil_r.
  - unfold is_csv at 1.
    destruct (endswith name ".csv"); cbn [andb].
    + rewrite py_read_file_outcome.
      destruct (file_exception (content dir name)); [discriminate |].
      cbn [bind]. intros H.
      rewrite (IH _ _ _ _ H), py_measurements_of_process_rows, <- app_assoc.
      reflexivity.
    + cbn [app]. apply IH.
Qed.

Lemma py_flat_map_no_match {A B : Type} (f : A -> list B) (l : list A) :
  (forall x, In x l -> f x = []) -> flat_map f l = [].
Proof.
  induction l as [| x l IH]; intros H; cbn [flat_map]; [reflexivity |].
  rewrite (H x) by now left. apply IH. intros y Hy. apply H. now right.
Qed.

Lemma py_flat_map_one_file (server filename : string) (names : list string) :
  NoDup names -> In filename names ->
  flat_map
    (fun name =>
       if (is_csv name && (filename =? name)%string)%bool
       then readings lib server (tl (rows (content dir name))) else [])
    names
  = if is_csv filename
    then readings lib server (tl (rows (content dir filename))) else [].
Proof.
  induction names as [| name names IH]; intros Hnd Hin; [destruct Hin |].
  inversion Hnd as [| ? ? Hnotin Hnd']; subst.
  cbn [flat_map].
  destruct Hin as [-> | Hin].
  - rewrite String.eqb_refl, andb_true_r.
    rewrite py_flat_map_no_match.
    + rewrite app_nil_r. reflexivity.
    + intros name' Hin'.
      destruct (String.eqb_spec filename name') as [<- | _];
        [| now rewrite andb_false_r].
      now elim Hnotin.
  - destruct (String.eqb_spec filename name) as [<- | _].
    + now elim Hnotin.
    + rewrite andb_false_r. cbn [app]. now apply IH.
Qed.

End Storing.

(** X5.  When no file name is listed twice, the corpus that
    [read_csv_files] returns holds, for every server and every listed
    file with a [.csv] name, exactly the readings of the rows after the
    header that name this server, one per row to which [parse_value]
    gives a number in both fields or in neither, in the order of the
    rows; for any other file name it holds nothing. *)
Theorem X5_corpus_holds_the_rows_in_order (lib : library) (dir : directory)
    (names : list string) (data : corpus) (file_names : list string) :
  listdir dir = Ok names ->
  read_csv_files lib dir = Ok (data, file_names) ->
  NoDup names ->
  (forall server filename,
     In filename names -> is_csv filename = true ->
     measurements_of data server filename
     = readings lib server (tl (rows (content dir filename)))) /\
  (forall server filename,
     ~ (In filename names /\ is_csv filename = true) ->
     measurements_of data server filename = []).
Proof.
  unfold read_csv_files. intros -> Hread Hnd. cbn [bind] in Hread.
  pose proof (sorted_perm String.ltb (fun name : string => name) names) as Hperm.
  assert (Hnd' : NoDup (sorted String.ltb (fun name => name) names))
    by (eapply Permutation_NoDup; eassumption).
  split.
  - intros server filename Hin Hcsv.
    rewrite (py_measurements_of_read_files lib dir _ server filename _ _ _ _ Hread).
    cbn [measurements_of get app].
    rewrite (py_flat_map_one_file lib dir server filename);
      [now rewrite Hcsv | assumption |].
    eapply Permutation_in; eassumption.
  - intros server filename Hnot.
    rewrite (py_measurements_of_read_files lib dir _ server filename _ _ _ _ Hread).
    cbn [measurements_of get app].
    apply py_flat_map_no_match. intros name Hin.
    destruct (is_csv name) eqn:Hcsv; [| reflexivity].
    destruct (String.eqb_spec filename name) as [-> | _]; [| reflexivity].
    elim Hnot. split; [| assumption].
    eapply Permutation_in; [apply Permutation_sym; eassumption | assumption].
Qed.

Lemma X5_witness_two_files :
  let data : corpus :=
    [("t"%string, [("a.csv"%string, [ErrorMarker])]);
     ("s"%string, [("a.csv"%string, [ErrorMarker; Valid PrimFloat.nan PrimFloat.infinity]);
                   ("b.csv"%string, [ErrorMarker])])] in
  measurements_of data "s" "a.csv"
  = readings cpython "s"
      [["t"; ""; "x"]; ["s"; "?"; ""]; ["s"; "1"; "oops"]; ["s"; "2"];
       ["s"; "nan"; "inf"]]%string.
Proof.
  intros data.
  refine (proj1 (X5_corpus_holds_the_rows_in_order cpython directory_two_files
                   ["b.csv"; "a.csv"]%string data
                   ["a.csv"; "b.csv"]%string eq_refl _ _)
            "s"%string "a.csv"%string _ _).
  - vm_compute. reflexivity.
  - repeat constructor; cbn; intuition discriminate.
  - right. now left.
  - vm_compute. reflexivity.
Defined.

(** ** [read_csv_files]: the order of the servers *)

Section Keys.
Variable lib : library.
Variable dir : directory.

Lemma py_existsb_eqb_in (k : string) (keys : list string) :
  existsb (String.eqb k) keys = true <-> In k keys.
Proof.
  rewrite existsb_exists. split.
  - intros (x & Hin & Heq). apply String.eqb_eq in Heq. now subst.
  - intros Hin. exists k. split; [assumption | apply String.eqb_refl].
Qed.

Lemma py_record_measurement_key_order (server filename : string)
    (m : measurement) (data : corpus) :
  map fst (record_measurement server filename m data)
  = add_key (map fst data) server.
Proof.
  unfold record_measurement, add_key.
  match goal with
  | |- context [setdefault_update ?k ?d ?f ?l] =>
      destruct (setdefault_update_keys k d f l) as [[Hin Heq] | [Hnin Heq]]
  end; unfold server_dataset in *; rewrite Heq.
  - apply py_existsb_eqb_in in Hin. now rewrite Hin.
  - destruct (existsb (String.eqb server) (map fst data)) eqn:Hex.
    + apply py_existsb_eqb_in in Hex. contradiction.
    + unfold server_dataset in *. now rewrite Hex.
Qed.

Lemma py_process_row_key_order (filename : string) (r : row) (data : corpus) :
  map fst (process_row lib filename r data)
  = fold_left add_key (recorded_names lib [r]) (map fst data).
Proof.
  unfold recorded_names. cbn [flat_map]. rewrite app_nil_r.
  destruct r as [| name [| ping [| speed [| extra r]]]]; try reflexivity.
  cbn [process_row]. unfold parses.
  destruct (parse_value lib ping), (parse_value lib speed);
    cbn [Bool.eqb fold_left];
    rewrite ?py_record_measurement_key_order; reflexivity.
Qed.

Lemma py_recorded_names_app (body body' : list row) :
  recorded_names lib (body ++ body')
  = recorded_names lib body ++ recorded_names lib body'.
Proof. unfold recorded_names. apply flat_map_app. Qed.

Lemma py_process_rows_key_order (filename : string) (body : list row) :
  forall data,
    map fst (process_rows lib filename body data)
    = fold_left add_key (recorded_names lib body) (map fst data).
Proof.
  unfold process_rows.
  induction body as [| r body IH]; intros data; cbn [fold_left];
    [reflexivity |].
  rewrite IH, py_process_row_key_order.
  change (r :: body) with ([r] ++ body).
  now rewrite py_recorded_names_app, fold_left_app.
Qed.

Lemma py_read_files_key_order (names : list string) :
  forall data file_names data' file_names',
    read_files lib dir names data file_names = Ok (data', file_names') ->
    map fst data'
    = fold_left add_key (recorded_names lib (data_rows dir names)) (map fst data).
Proof.
  induction names as [| name names IH];
    intros data file_names data' file_names'; cbn [read_files].
  - now intros [= <- _].
  - unfold data_rows. cbn [flat_map]. fold (data_rows dir names).
    unfold is_csv at 1.
    destruct (endswith name ".csv").
    + rewrite py_read_file_outcome.
      destruct (file_exception (content dir name)); [discriminate |].
      cbn [bind]. intros H.
      rewrite (IH _ _ _ _ H), py_process_rows_key_order.
      now rewrite py_recorded_names_app, fold_left_app.
    + cbn [app]. apply IH.
Qed.

End Keys.

Lemma py_add_keys_in (names : list string) :
  forall keys k,
    In k (fold_left add_key names keys) <-> In k keys \/ In k names.
Proof.
  induction names as [| name names IH]; intros keys k; cbn [fold_left].
  - split; [now left | intros [H | []]; assumption].
  - rewrite IH. unfold add_key.
    destruct (existsb (String.eqb name) keys) eqn:Hex.
    + apply py_existsb_eqb_in in Hex. cbn [In]. split.
      * intros [H | H]; [now left | right; now right].
      * intros [H | [<- | H]]; [now left | now left | now right].
    + rewrite in_app_iff. cbn [In]. split.
      * intros [[H | [<- | []]] | H];
          [now left | right; now left | right; now right].
      * intros [H | [<- | H]];
          [left; now left | left; right; now left | now right].
Qed.

Lemma py_add_keys_nodup (names : list string) :
  forall keys, NoDup keys -> NoDup (fold_left add_key names keys).
Proof.
  induction names as [| name names IH]; intros keys Hnd; cbn [fold_left];
    [assumption |].
  apply IH. unfold add_key.
  destruct (existsb (String.eqb name) keys) eqn:Hex; [assumption |].
  apply NoDup_app; [assumption | repeat constructor; intros [] |].
  intros k Hk [<- | []].
  apply py_existsb_eqb_in in Hk. congruence.
Qed.

Lemma py_recorded_names_in (lib : library) (body : list row) (server : string) :
  In server (recorded_names lib body) <->
  exists ping speed,
    In [server; ping; speed] body /\ parses lib ping = parses lib speed.
Proof.
  unfold recorded_names. rewrite in_flat_map. split.
  - intros (r & Hr & Hin).
    destruct r as [| name [| ping [| speed [| extra r]]]]; try destruct Hin.
    destruct (Bool.eqb (parses lib ping) (parses lib speed)) eqn:Heq;
      [| destruct Hin].
    destruct Hin as [<- | []]. exists ping, speed.
    split; [assumption | now apply eqb_prop].
  - intros (ping & speed & Hin & Heq).
    exists [server; ping; speed]. split; [assumption |].
    rewrite Heq, Bool.eqb_reflx. now left.
Qed.

Lemma py_read_csv_files_key_order (lib : library) (dir : directory)
    (names : list string) (data : corpus) (file_names : list string) :
  listdir dir = Ok names ->
  read_csv_files lib dir = Ok (data, file_names) ->
  map fst data
  = first_occurrences
      (recorded_names lib
         (data_rows dir (sorted String.ltb (fun name => name) names))).
Proof.
  unfold read_csv_files. intros -> Hread. cbn [bind] in Hread.
  now rewrite (py_read_files_key_order lib dir _ _ _ _ _ Hread).
Qed.

(** X18.  The servers stand in the corpus in the order in which the rows
    first record them, the files taken in the ascending order of their
    names and the rows of a file from top to bottom; this is the order in
    which [rank_nodes] meets them, so the order that ties keep. *)
Theorem X18_servers_in_order_of_first_row (lib : library) (dir : directory)
    (names : list string) (data : corpus) (file_names : list string) :
  listdir dir = Ok names ->
  read_csv_files lib dir = Ok (data, file_names) ->
  map fst data
  = first_occurrences
      (recorded_names lib
         (data_rows dir (sorted String.ltb (fun name => name) names))).
Proof. apply py_read_csv_files_key_order. Qed.

Lemma X18_witness_two_files :
  map fst
    [("t"%string, [("a.csv"%string, [ErrorMarker])]);
     ("s"%string, [("a.csv"%string, [ErrorMarker; Valid PrimFloat.nan PrimFloat.infinity]);
                   ("b.csv"%string, [ErrorMarker])])]
  = first_occurrences
      (recorded_names cpython
         (data_rows directory_two_files
            (sorted String.ltb (fun name => name) ["b.csv"; "a.csv"]%string))).
Proof.
  apply (X18_servers_in_order_of_first_row cpython directory_two_files
           ["b.csv"; "a.csv"]%string
           [("t"%string, [("a.csv"%string, [ErrorMarker])]);
            ("s"%string, [("a.csv"%string, [ErrorMarker; Valid PrimFloat.nan PrimFloat.infinity]);
                          ("b.csv"%string, [ErrorMarker])])]
           ["a.csv"; "b.csv"]%string eq_refl).
  vm_compute. reflexivity.
Defined.

(** ** [parse_value] in CPython *)

(** X17.  With CPython's [float] the test of [parse_value] for the empty
    string and for "ERROR" changes no result: [parse_value] returns
    what [float] returns and [None] where [float] raises [ValueError],
    and the empty string and every spelling of "error" are among the
    fields on which it raises. *)
Theorem X17_parse_value_is_float_or_none (value : string) :
  parse_value cpython value = float cpython value /\
  (spec_explicit_error value = true -> float cpython value = None).
Proof.
  split.
  - apply py_parse_value_float. exact py_cpython_error_is_no_number.
  - apply py_cpython_error_is_no_number.
Qed.

Lemma X17_witness_mixed_case :
  float cpython "eRRoR" = None.
Proof.
  apply (proj2 (X17_parse_value_is_float_or_none "eRRoR")).
  reflexivity.
Defined.

(** ** [calculate_scores] and [rank_nodes]: what is raised *)

Lemma py_int_true_divide_raises (a b : Z) (e : exception) :
  int_true_divide a b = Raise e ->
  e = ZeroDivisionError \/ e = OverflowError.
Proof.
  unfold int_true_divide. destruct (b =? 0)%Z.
  - intros [= <-]. now left.
  - destruct (PrimFloat.is_infinity (nearest_ratio a b)); [| discriminate].
    intros [= <-]. now right.
Qed.

Lemma py_statistics_stdev_raises (data : list PrimFloat.float) (e : exception) :
  (2 <= length data)%nat ->
  statistics_stdev data = Raise e ->
  e = ZeroDivisionError \/ e = OverflowError \/ e = AttributeError.
Proof.
  intros Hn. unfold statistics_stdev.
  destruct (Z.ltb_spec (Z.of_nat (length data)) 2); [lia |].
  destruct (exact_ratios data) as [qs |].
  - unfold float_sqrt_of_frac.
    match goal with
    | |- context [if ?c then _ else _] => destruct c
    end; intros He; apply py_int_true_divide_raises in He; tauto.
  - intros [= <-]. tauto.
Qed.

Lemma py_statistics_mean_raises (data : list PrimFloat.float) (e : exception) :
  data <> [] ->
  statistics_mean data = Raise e ->
  e = ZeroDivisionError \/ e = OverflowError.
Proof.
  intros Hne. unfold statistics_mean.
  destruct data as [| x data]; [now elim Hne |].
  destruct (exact_ratios (x :: data)) as [qs |]; [| discriminate].
  unfold float_of_fraction. apply py_int_true_divide_raises.
Qed.

(** X7.  With CPython's library, what [calculate_scores] raises is
    [ZeroDivisionError], [OverflowError] or [AttributeError]: the
    [StatisticsError] of the statistics functions cannot occur, since
    they are called on two data or more. *)
Theorem X7_what_scoring_raises (ms : list measurement) (e : exception) :
  calculate_scores cpython ms = Raise e ->
  (2 <= length (spec_valid_pairs ms))%nat /\
  (e = ZeroDivisionError \/ e = OverflowError \/ e = AttributeError).
Proof.
  destruct (Nat.lt_ge_cases (length (spec_valid_pairs ms)) 2) as [Hlt | Hge].
  { now rewrite py_calculate_scores_degenerate. }
  intros Hraise. split; [assumption |].
  assert (Hp : (2 <= length (spec_pings ms))%nat)
    by now rewrite py_spec_pings_length.
  assert (Hs : (2 <= length (spec_speeds ms))%nat)
    by now rewrite py_spec_speeds_length.
  assert (Hpne : spec_pings ms <> [])
    by (destruct (spec_pings ms); [simpl in Hp; lia | discriminate]).
  assert (Hsne : spec_speeds ms <> [])
    by (destruct (spec_speeds ms); [simpl in Hs; lia | discriminate]).
  rewrite py_calculate_scores_unfold in Hraise by assumption.
  cbn [stdev mean cpython] in Hraise.
  destruct (statistics_stdev (spec_pings ms)) as [ping_stdev | e1] eqn:H1;
    cbn [bind] in Hraise.
  2: { injection Hraise as <-. now apply (py_statistics_stdev_raises _ _ Hp). }
  destruct (py_div_cases 1 (ping_stdev + 1)) as [[_ H2] | [_ H2]];
    rewrite H2 in Hraise; cbn [bind] in Hraise.
  2: { injection Hraise as <-. now left. }
  destruct (statistics_stdev (spec_speeds ms)) as [speed_stdev | e3] eqn:H3;
    cbn [bind] in Hraise.
  2: { injection Hraise as <-. now apply (py_statistics_stdev_raises _ _ Hs). }
  destruct (statistics_mean (spec_speeds ms)) as [speed_mean | e4] eqn:H4;
    cbn [bind] in Hraise.
  2: { injection Hraise as <-.
       destruct (py_statistics_mean_raises _ _ Hsne H4); tauto. }
  destruct (py_div_cases speed_stdev speed_mean) as [[_ H5] | [_ H5]];
    rewrite H5 in Hraise; cbn [bind] in Hraise.
  2: { injection Hraise as <-. now left. }
  destruct (py_div_cases 1 (speed_stdev / speed_mean + 1)) as [[_ H6] | [_ H6]];
    rewrite H6 in Hraise; cbn [bind] in Hraise.
  2: { injection Hraise as <-. now left. }
  cbn [div] in Hraise. change (2 =? 0)%float with false in Hraise.
  cbn [bind] in Hraise.
  destruct (statistics_mean (spec_pings ms)) as [avg_ping | e7] eqn:H7;
    cbn [bind] in Hraise; [discriminate |].
  injection Hraise as <-.
  destruct (py_statistics_mean_raises _ _ Hpne H7); tauto.
Qed.

Lemma X7_witness_two_zero_speeds :
  (2 <= length (spec_valid_pairs [Valid 10 0; ErrorMarker; Valid 20 0]))%nat /\
  (ZeroDivisionError = ZeroDivisionError \/
   ZeroDivisionError = OverflowError \/ ZeroDivisionError = AttributeError).
Proof.
  apply (X7_what_scoring_raises [Valid 10 0; ErrorMarker; Valid 20 0]).
  vm_compute. reflexivity.
Defined.

Section Faults.
Variable lib : library.

Lemma py_rank_server_raises_iff (item : string * server_dataset) (e : exception) :
  rank_server lib item = Raise e <->
  calculate_scores lib (all_measurements (snd item)) = Raise e.
Proof.
  unfold rank_server.
  destruct (calculate_scores lib (all_measurements (snd item)))
    as [[[stability speed] ping] | e0]; cbn [bind].
  - rewrite py_weigh_returns. cbn [bind]. split; discriminate.
  - split; intros [= ->]; reflexivity.
Qed.

Lemma py_rank_loop_raises (items : corpus) (e : exception) :
  forall acc,
    rank_loop lib items acc = Raise e <->
    exists before item after,
      items = before ++ item :: after /\
      Forall (fun i => exists r, rank_server lib i = Ok r) before /\
      rank_server lib item = Raise e.
Proof.
  induction items as [| item items IH]; intros acc; cbn [rank_loop].
  - split; [discriminate |].
    intros (before & i & after & Heq & _). now destruct before.
  - destruct (rank_server lib item) as [r | e0] eqn:Hr; cbn [bind].
    + rewrite IH. split.
      * intros (before & i & after & -> & Hok & Hraise).
        exists (item :: before), i, after.
        split; [reflexivity |]. split; [| assumption].
        constructor; [now exists r | assumption].
      * intros (before & i & after & Heq & Hok & Hraise).
        destruct before as [| b before].
        -- injection Heq as <- _. congruence.
        -- injection Heq as <- ->. inversion Hok; subst.
           now exists before, i, after.
    + split.
      * intros [= <-]. exists [], item, items. repeat split; [constructor | assumption].
      * intros (before & i & after & Heq & Hok & Hraise).
        destruct before as [| b before].
        -- injection Heq as <- _. congruence.
        -- injection Heq as <- _. inversion Hok as [| ? ? [r Hb] _]; subst.
           congruence.
Qed.

End Faults.

(** X12.  One server whose scores cannot be computed stops the whole
    ranking: [rank_nodes] raises exactly when [calculate_scores] raises
    for some server of the corpus, and what it raises is the exception of
    the first such server in corpus order. *)
Theorem X12_one_faulty_server_stops_the_ranking (lib : library)
    (data : corpus) (e : exception) :
  rank_nodes lib data = Raise e <->
  exists before item after,
    data = before ++ item :: after /\
    Forall (fun i => exists scores,
              calculate_scores lib (all_measurements (snd i)) = Ok scores)
      before /\
    calculate_scores lib (all_measurements (snd item)) = Raise e.
Proof.
  assert (Hok : forall i,
            (exists r, rank_server lib i = Ok r) <->
            (exists scores,
               calculate_scores lib (all_measurements (snd i)) = Ok scores)).
  { intros i. unfold rank_server.
    destruct (calculate_scores lib (all_measurements (snd i)))
      as [[[stability speed] ping] | e0]; cbn [bind].
    - rewrite py_weigh_returns. cbn [bind].
      split; intros _; eexists; reflexivity.
    - split; intros [x Hx]; discriminate. }
  unfold rank_nodes.
  destruct (rank_loop lib data []) as [rankings | e0] eqn:Hloop; cbn [bind].
  - split; [discriminate |].
    intros (before & item & after & Heq & Hbefore & Hraise).
    assert (Hr : rank_loop lib data [] = Raise e).
    { apply py_rank_loop_raises. exists before, item, after.
      split; [assumption |]. split.
      - eapply Forall_impl; [| exact Hbefore]. intros i. apply Hok.
      - now apply py_rank_server_raises_iff. }
    congruence.
  - split.
    + intros [= <-]. apply py_rank_loop_raises in Hloop.
      destruct Hloop as (before & item & after & Heq & Hbefore & Hraise).
      exists before, item, after. split; [assumption |]. split.
      * eapply Forall_impl; [| exact Hbefore]. intros i. apply Hok.
      * now apply py_rank_server_raises_iff.
    + intros (before & item & after & Heq & Hbefore & Hraise).
      assert (Hr : rank_loop lib data [] = Raise e).
      { apply py_rank_loop_raises. exists before, item, after.
        split; [assumption |]. split.
        - eapply Forall_impl; [| exact Hbefore]. intros i. apply Hok.
        - now apply py_rank_server_raises_iff. }
      congruence.
Qed.

Lemma X12_witness_one_faulty_server :
  exists before item after,
    [("a"%string, [("f.csv"%string, [Valid 10 50; Valid 20 60])]);
     ("b"%string, [("f.csv"%string, [Valid 1 0; Valid 2 0])]);
     ("c"%string, [("f.csv"%string, [Valid PrimFloat.infinity 1; Valid 2 3])])]
    = before ++ item :: after /\
    Forall (fun i => exists scores,
              calculate_scores cpython (all_measurements (snd i)) = Ok scores)
      before /\
    calculate_scores cpython (all_measurements (snd item))
    = Raise ZeroDivisionError.
Proof.
  apply (X12_one_faulty_server_stops_the_ranking cpython).
  vm_compute. reflexivity.
Defined.

(** ** [main]: from the directory to the table *)

Section MainRankings.
Variable lib : library.

Lemma py_rank_server_name (item : string * server_dataset) (r : ranking) :
  rank_server lib item = Ok r -> server_name r = fst item.
Proof.
  unfold rank_server.
  destruct (calculate_scores lib (all_measurements (snd item)))
    as [[[stability speed] ping] |]; [| discriminate].
  cbn [bind]. rewrite py_weigh_returns. cbn [bind]. now intros [= <-].
Qed.

Lemma py_rankings_names (data : corpus) (rankings : list ranking) :
  Forall2 (fun item r => rank_server lib item = Ok r) data rankings ->
  map server_name rankings = map fst data.
Proof.
  induction 1 as [| item r data rankings Hr _ IH]; cbn [map]; [reflexivity |].
  now rewrite (py_rank_server_name _ _ Hr), IH.
Qed.

Lemma py_rank_nodes_names (data : corpus) (out : list ranking) :
  rank_nodes lib data = Ok out ->
  Permutation (map fst data) (map server_name out).
Proof.
  intros Hout.
  destruct (py_rank_nodes_spec lib data out Hout) as (rankings & Hrs & ->).
  rewrite <- (py_rankings_names _ _ Hrs). apply Permutation_map.
  apply sorted_reverse_perm.
Qed.

End MainRankings.

(** X14.  In the ranking that [main] prints no server name occurs twice,
    and a name is ranked exactly when some row after a header of a listed
    [.csv] file has three fields, this name first, and [parse_value]
    gives a number in both the ping and the speed field or in neither. *)
Theorem X14_ranked_servers (lib : library) (dir : directory)
    (names : list string) (out : list ranking) :
  listdir dir = Ok names ->
  main_rankings lib dir = Ok out ->
  NoDup (map server_name out) /\
  forall server,
    In server (map server_name out) <->
    exists ping speed,
      In [server; ping; speed] (data_rows dir names) /\
      parses lib ping = parses lib speed.
Proof.
  intros Hnames. unfold main_rankings.
  destruct (read_csv_files lib dir) as [[data file_names] | e] eqn:Hread;
    [| discriminate].
  cbn [bind fst]. intros Hrank.
  pose proof (py_rank_nodes_names lib data out Hrank) as Hperm.
  pose proof (py_read_csv_files_key_order lib dir names data
                file_names Hnames Hread) as Hkeys.
  split.
  - eapply Permutation_NoDup; [exact Hperm |].
    rewrite Hkeys. unfold first_occurrences. apply py_add_keys_nodup. constructor.
  - intros server.
    assert (Hrows : forall r,
              In r (data_rows dir (sorted String.ltb (fun name => name) names))
              <-> In r (data_rows dir names)).
    { intros r. unfold data_rows. rewrite !in_flat_map.
      split; intros (name & Hin & Hr); exists name; (split; [| assumption]).
      - eapply Permutation_in;
          [apply Permutation_sym, (sorted_perm String.ltb (fun name => name)) |
           exact Hin].
      - eapply Permutation_in;
          [apply (sorted_perm String.ltb (fun name => name)) | exact Hin]. }
    split.
    + intros Hin. apply (Permutation_in _ (Permutation_sym Hperm)) in Hin.
      rewrite Hkeys in Hin. unfold first_occurrences in Hin.
      apply py_add_keys_in in Hin.
      destruct Hin as [[] | Hin].
      apply py_recorded_names_in in Hin.
      destruct Hin as (ping & speed & Hin & Heq).
      exists ping, speed. split; [now apply Hrows | assumption].
    + intros (ping & speed & Hin & Heq).
      apply (Permutation_in _ Hperm). rewrite Hkeys. unfold first_occurrences.
      apply py_add_keys_in. right. apply py_recorded_names_in.
      exists ping, speed. split; [now apply Hrows | assumption].
Qed.

Lemma X14_witness_one_error_row :
  NoDup (map server_name
           [mk_ranking "s" 0 0 0 PrimFloat.infinity]).
Proof.
  apply (X14_ranked_servers cpython
           (mk_directory (Ok ["a.csv"%string])
              (fun _ => mk_file [["server"; "ping"; "speed"];
                                 ["s"; "ERROR"; ""]]%string None))
           ["a.csv"%string]
           [mk_ranking "s" 0 0 0 PrimFloat.infinity] eq_refl).
  vm_compute. reflexivity.
Defined.

Lemma py_no_key_no_name (names : list string) :
  first_occurrences names = [] <-> names = [].
Proof.
  split; [| now intros ->].
  destruct names as [| name names]; [reflexivity |]. intros H.
  assert (Hin : In name (first_occurrences (name :: names))).
  { unfold first_occurrences. apply py_add_keys_in. right. now left. }
  rewrite H in Hin. destruct Hin.
Qed.

Lemma py_recorded_names_empty (lib : library) (body body' : list row) :
  (forall r, In r body <-> In r body') ->
  recorded_names lib body = [] -> recorded_names lib body' = [].
Proof.
  intros Hsame Hnone.
  destruct (recorded_names lib body') as [| server rest] eqn:H'; [reflexivity |].
  assert (Hin : In server (recorded_names lib body'))
    by (rewrite H'; now left).
  apply py_recorded_names_in in Hin.
  destruct Hin as (ping & speed & Hin & Heq).
  assert (Hin' : In server (recorded_names lib body)).
  { apply py_recorded_names_in. exists ping, speed.
    split; [now apply Hsame | assumption]. }
  rewrite Hnone in Hin'. destruct Hin'.
Qed.

Lemma py_data_rows_sorted (dir : directory) (names : list string) (r : row) :
  In r (data_rows dir (sorted String.ltb (fun name => name) names))
  <-> In r (data_rows dir names).
Proof.
  unfold data_rows. rewrite !in_flat_map.
  split; intros (name & Hin & Hr); exists name; (split; [| assumption]).
  - eapply Permutation_in;
      [apply Permutation_sym, (sorted_perm String.ltb (fun name => name)) |
       exact Hin].
  - eapply Permutation_in;
      [apply (sorted_perm String.ltb (fun name => name)) | exact Hin].
Qed.

(** X13.  When the directory is listed, the ranking that [main] prints
    is empty exactly when the reading of no listed [.csv] file ends with
    an exception and no row after a header of such a file has three
    fields and a number, for [parse_value], in both the ping and the
    speed field or in neither; a directory without [.csv] files is such
    a case. *)
Theorem X13_empty_ranking (lib : library) (dir : directory)
    (names : list string) :
  listdir dir = Ok names ->
  (main_rankings lib dir = Ok [] <->
   (forall name, In name names -> fails dir name = false) /\
   recorded_names lib (data_rows dir names) = []).
Proof.
  intros Hnames.
  pose proof (sorted_perm String.ltb (fun name : string => name) names) as Hperm.
  pose proof (py_read_files_outcome lib dir
                (sorted String.ltb (fun name => name) names) [] []) as Hout.
  unfold main_rankings, read_csv_files. rewrite Hnames. cbn [bind].
  destruct (find (fails dir) (sorted String.ltb (fun name => name) names))
    as [bad |] eqn:Hfind.
  - destruct Hout as (e & _ & ->). cbn [bind]. split; [discriminate |].
    intros [Hnone _]. apply find_some in Hfind. destruct Hfind as [Hin Hbad].
    rewrite Hnone in Hbad; [discriminate |].
    eapply Permutation_in; [apply Permutation_sym; eassumption | assumption].
  - destruct Hout as [data Hread]. rewrite Hread. cbn [bind fst].
    pose proof (py_read_files_key_order lib dir _ _ _ _ _ Hread) as Hkeys.
    cbn [map] in Hkeys.
    split.
    + intros Hrank. split.
      * intros name Hin.
        apply (find_none _ _ Hfind).
        eapply Permutation_in; eassumption.
      * pose proof (py_rank_nodes_names lib data [] Hrank) as Hp.
        apply Permutation_sym, Permutation_nil in Hp.
        rewrite Hp in Hkeys. symmetry in Hkeys.
        apply (proj1 (py_no_key_no_name _)) in Hkeys.
        eapply py_recorded_names_empty; [| exact Hkeys].
        intros r. apply py_data_rows_sorted.
    + intros [_ Hnone].
      assert (Hnone' : recorded_names lib
                (data_rows dir (sorted String.ltb (fun name => name) names)) = []).
      { eapply py_recorded_names_empty; [| exact Hnone].
        intros r. symmetry. apply py_data_rows_sorted. }
      rewrite Hnone' in Hkeys. cbn in Hkeys.
      destruct data; [reflexivity | discriminate].
Qed.

Lemma X13_witness_no_csv_file :
  let dir :=
    mk_directory (Ok ["notes.txt"; "b.csv"]%string)
      (fun name =>
         if (name =? "b.csv")%string
         then mk_file [["server"; "ping"; "speed"]; ["s"; "1"; "x"]]%string None
         else mk_file [] (Some (OtherError "UnicodeDecodeError"))) in
  main_rankings cpython dir = Ok [].
Proof.
  intros dir.
  apply (X13_empty_ranking cpython dir ["notes.txt"; "b.csv"]%string eq_refl).
  split.
  - intros name [<- | [<- | []]]; reflexivity.
  - vm_compute. reflexivity.
Defined.
